(** * vgarduino: VGA signal generation on an ATmega328P

    A shallow embedding of the two sketches of the repository and the
    properties of their line/phase state machine, interrupt handler and
    wait routines.

    - [V1_1] is [vgarduino.ino] (history entry v1.1): [lines_left] counts
      down, the wait routine is the inline-assembly one, colour bands are
      spaced with [delayMicroseconds].
    - [V1_0] is the earlier sketch (history entry v1.0 only): [line_number]
      counts up, the wait routine polls [TCNT1L], colour bands are placed
      with [waitTimer1].
    - [AVR] is the instruction-level model of the inline assembly of
      [waitTimer1] in [vgarduino.ino], with the cycle counts the source
      annotates each instruction with. *)

From Stdlib Require Import ZArith List Bool Lia.
Import ListNotations.
Open Scope Z_scope.

(** ** Machine integers *)

(** Conversion to [byte] (uint8_t): what happens to a value stored in a
    [byte] variable or passed as a [byte] parameter. *)
Definition to_byte (x : Z) : Z := x mod 256.

(** Conversion to [int] (16 bits, two's complement, on AVR). *)
Definition to_int (x : Z) : Z := (x + 32768) mod 65536 - 32768.

(** avr-libc's [_BV(bit)] is [(1 << (bit))]. *)
Definition _BV (bit : Z) : Z := Z.shiftl 1 bit.

(** Read of a C array: reading outside [0 .. length-1] has no defined
    result. *)
Definition array_get (a : list Z) (i : Z) : option Z :=
  if i <? 0 then None else nth_error a (Z.to_nat i).

(** ** Observable actions of the interrupt handler *)

Inductive event : Type :=
| EvWait (arg : Z)     (* a call waitTimer1(arg); [arg] is the value of the
                          argument expression, an int: the routine's byte
                          parameter receives [to_byte arg] *)
| EvDelay (us : Z)     (* delayMicroseconds(us) *)
| EvPORTD (v : Z)      (* a store to PORTD, the RGB port *)
| EvPORTB (v : Z).     (* a store to PORTB, the synch port *)

(** Values stored to the RGB port, in order. *)
Fixpoint rgb_writes (tr : list event) : list Z :=
  match tr with
  | [] => []
  | EvPORTD v :: tr' => v :: rgb_writes tr'
  | _ :: tr' => rgb_writes tr'
  end.

(** Values stored to the synch port, in order. *)
Fixpoint sync_writes (tr : list event) : list Z :=
  match tr with
  | [] => []
  | EvPORTB v :: tr' => v :: sync_writes tr'
  | _ :: tr' => sync_writes tr'
  end.

(** Values of the argument expressions of the successive calls of
    [waitTimer1]. *)
Fixpoint wait_exprs (tr : list event) : list Z :=
  match tr with
  | [] => []
  | EvWait e :: tr' => e :: wait_exprs tr'
  | _ :: tr' => wait_exprs tr'
  end.

(** Bytes received by the successive calls of [waitTimer1]. *)
Fixpoint wait_args (tr : list event) : list Z :=
  match tr with
  | [] => []
  | EvWait e :: tr' => to_byte e :: wait_args tr'
  | _ :: tr' => wait_args tr'
  end.

(** The stores to the RGB port that come right after a wait, each with
    the byte the wait was entered with. *)
Fixpoint waited_stores (tr : list event) : list (Z * Z) :=
  match tr with
  | [] => []
  | EvWait e :: tr' =>
      match tr' with
      | EvPORTD v :: _ => (to_byte e, v) :: waited_stores tr'
      | _ => waited_stores tr'
      end
  | _ :: tr' => waited_stores tr'
  end.

(** ** A state, failure and trace monad for the handlers

    [St] is the type of the sketch's global variables and I/O registers.
    A computation may fail (an array read out of bounds) and appends the
    actions it performs to the trace. *)

Definition M (St A : Type) : Type := St -> option (A * St * list event).

Definition ret {St A} (a : A) : M St A := fun s => Some (a, s, []).

Definition bind {St A B} (m : M St A) (f : A -> M St B) : M St B :=
  fun s =>
    match m s with
    | None => None
    | Some (a, s1, t1) =>
        match f a s1 with
        | None => None
        | Some (b, s2, t2) => Some (b, s2, t1 ++ t2)
        end
    end.

Definition get {St A} (f : St -> A) : M St A := fun s => Some (f s, s, []).
Definition put {St} (f : St -> St) : M St unit := fun s => Some (tt, f s, []).
Definition emit {St} (e : event) : M St unit := fun s => Some (tt, s, [e]).
Definition fail {St A} : M St A := fun _ => None.

Definition lift_opt {St A} (o : option A) : M St A :=
  match o with Some a => ret a | None => fail end.

Declare Scope m_scope.
Delimit Scope m_scope with m.
Notation "x <- m ;; k" := (bind m (fun x => k))
  (at level 61, m at next level, right associativity) : m_scope.
Notation "m ;; k" := (bind m (fun _ => k))
  (at level 61, right associativity) : m_scope.

(** Final state of a computation, when it does not fail. *)
Definition exec {St A} (m : M St A) (s : St) : option St :=
  match m s with Some (_, s', _) => Some s' | None => None end.

(** Trace of a computation, when it does not fail. *)
Definition trace {St A} (m : M St A) (s : St) : option (list event) :=
  match m s with Some (_, _, t) => Some t | None => None end.

(** [n] successive runs of [m], as [n] successive interrupts or calls. *)
Fixpoint iter {St} (n : nat) (m : M St unit) (s : St) : option St :=
  match n with
  | O => Some s
  | S n' => match exec m s with Some s' => iter n' m s' | None => None end
  end.

(** The states [n] successive runs of [m] go through, the first one
    included. *)
Fixpoint trajectory {St} (n : nat) (m : M St unit) (s : St) : option (list St) :=
  match n with
  | O => Some [s]
  | S n' =>
      match exec m s with
      | Some s' =>
          match trajectory n' m s' with
          | Some l => Some (s :: l)
          | None => None
          end
      | None => None
      end
  end.

(** ** [vgarduino.ino] (v1.1) *)

Module V1_1.

Definition RED_PIN := 7.
Definition GREEN_PIN := 6.
Definition BLUE_PIN := 5.

Definition HSYNCH_PIN := 1.
Definition VSYNCH_PIN := 0.

Definition BLACK_MASK := 0.
Definition RED_MASK := _BV RED_PIN.
Definition GREEN_MASK := _BV GREEN_PIN.
Definition BLUE_MASK := _BV BLUE_PIN.
Definition CYAN_MASK := Z.lor (_BV GREEN_PIN) (_BV BLUE_PIN).
Definition YELLOW_MASK := Z.lor (_BV RED_PIN) (_BV GREEN_PIN).
Definition MAGENTA_MASK := Z.lor (_BV RED_PIN) (_BV BLUE_PIN).
Definition WHITE_MASK := Z.lor (Z.lor (_BV RED_PIN) (_BV GREEN_PIN)) (_BV BLUE_PIN).

Definition V_FRONT_PORCH_LINES := 11.
Definition V_SYNCH_PULSE_LINES := 2.
Definition V_BACK_PORCH_LINES := 31.
Definition V_ACTIVE_VIDEO_LINES := 480.

Definition SYNCH_PULSE := 0.
Definition BACK_PORCH := 1.
Definition ACTIVE_VIDEO := 2.
Definition FRONT_PORCH := 3.

Definition nb_line_modes : list Z :=
  [ V_SYNCH_PULSE_LINES; V_BACK_PORCH_LINES; V_ACTIVE_VIDEO_LINES; V_FRONT_PORCH_LINES ].

Definition H_SYNCH_PULSE_TICKS := 61.
Definition H_BACK_PORCH_TICKS := 30.
Definition H_ACTIVE_VIDEO_TICKS := 406.
Definition H_FRONT_PORCH_TICKS := 10.
Definition H_FULL_LINE_NB_TICKS :=
  H_SYNCH_PULSE_TICKS + H_BACK_PORCH_TICKS + H_ACTIVE_VIDEO_TICKS + H_FRONT_PORCH_TICKS.

(** The two globals of the sketch and the two output ports the handler
    stores to.  The data-direction and timer-configuration registers are
    written once by [setup] and never read by the handler. *)
Record state : Type := mkState {
  phase : Z;        (* byte phase *)
  lines_left : Z;   (* int lines_left *)
  PORTD : Z;        (* PORT(RGB_PORT) *)
  PORTB : Z         (* PORT(SYNCH_PORT) *)
}.

Definition set_phase (v : Z) (s : state) : state :=
  mkState v (lines_left s) (PORTD s) (PORTB s).
Definition set_lines_left (v : Z) (s : state) : state :=
  mkState (phase s) v (PORTD s) (PORTB s).

(** A store to an 8-bit port register. *)
Definition write_PORTD (v : Z) : M state unit :=
  fun s => Some (tt, mkState (phase s) (lines_left s) (to_byte v) (PORTB s),
                 [EvPORTD (to_byte v)]).
Definition write_PORTB (v : Z) : M state unit :=
  fun s => Some (tt, mkState (phase s) (lines_left s) (PORTD s) (to_byte v),
                 [EvPORTB (to_byte v)]).

Local Open Scope m_scope.

Definition incrementLineNumber : M state unit :=
  ll <- get lines_left ;;
  put (set_lines_left (to_int (ll - 1))) ;;
  ll <- get lines_left ;;
  if ll =? 0 then
    ph <- get phase ;;
    put (set_phase (to_byte (ph + 1))) ;;
    ph <- get phase ;;
    put (set_phase (Z.land ph 3)) ;;
    ph <- get phase ;;
    n <- lift_opt (array_get nb_line_modes ph) ;;
    put (set_lines_left n)
  else ret tt.

(** A call [waitTimer1(e)]: the argument is converted to the [byte]
    parameter (see [wait_args]).  The cycles the routine then spends are
    the subject of module [AVR]. *)
Definition waitTimer1 (e : Z) : M state unit := emit (EvWait e).

Definition delayMicroseconds (us : Z) : M state unit := emit (EvDelay us).

(** [ISR(TIMER1_CAPT_vect)]: one run per horizontal line. *)
Definition TIMER1_CAPT_vect : M state unit :=
  ph <- get phase ;;
  (if ph =? ACTIVE_VIDEO then
     waitTimer1 (H_SYNCH_PULSE_TICKS + H_BACK_PORCH_TICKS) ;;
     write_PORTD RED_MASK ;;
     delayMicroseconds 3 ;;
     write_PORTD GREEN_MASK ;;
     delayMicroseconds 3 ;;
     write_PORTD BLUE_MASK ;;
     delayMicroseconds 3 ;;
     write_PORTD CYAN_MASK ;;
     delayMicroseconds 3 ;;
     write_PORTD YELLOW_MASK ;;
     delayMicroseconds 3 ;;
     write_PORTD MAGENTA_MASK ;;
     delayMicroseconds 3 ;;
     write_PORTD BLACK_MASK ;;
     delayMicroseconds 3 ;;
     write_PORTD WHITE_MASK ;;
     delayMicroseconds 3 ;;
     write_PORTD 0
   else if (ph =? FRONT_PORCH) || (ph =? SYNCH_PULSE) then
     ll <- get lines_left ;;
     if ll =? 1 then
       waitTimer1 (H_SYNCH_PULSE_TICKS + H_BACK_PORCH_TICKS) ;;
       pb <- get PORTB ;;
       write_PORTB (Z.lxor pb (_BV VSYNCH_PIN))
     else ret tt
   else ret tt) ;;
  incrementLineNumber.

Definition init_io : M state unit :=
  write_PORTD 0 ;;
  write_PORTB (Z.lor (_BV VSYNCH_PIN) (_BV HSYNCH_PIN)).

Definition init_video_line_timer : M state unit :=
  put (set_phase FRONT_PORCH) ;;
  ph <- get phase ;;
  n <- lift_opt (array_get nb_line_modes ph) ;;
  put (set_lines_left n).

Definition setup : M state unit :=
  init_io ;;
  init_video_line_timer.

(** Globals and port registers are zero after reset. *)
Definition reset : state := mkState 0 0 0 0.

(** The state [setup] leaves, in which interrupts are enabled. *)
Definition initial : state :=
  mkState FRONT_PORCH V_FRONT_PORCH_LINES 0 (Z.lor (_BV VSYNCH_PIN) (_BV HSYNCH_PIN)).

(** The state after [n] calls of [incrementLineNumber] from [initial]. *)
Definition advance (n : nat) : option state := iter n incrementLineNumber initial.

(** The state after [n] line interrupts from [initial]. *)
Definition after (n : nat) : option state := iter n TIMER1_CAPT_vect initial.

(** The phase in which each of [n] successive interrupts is entered and
    the actions it performs. *)
Fixpoint lines (n : nat) (s : state) : option (list (Z * list event)) :=
  match n with
  | O => Some []
  | S n' =>
      match TIMER1_CAPT_vect s with
      | None => None
      | Some (_, s', tr) =>
          match lines n' s' with
          | None => None
          | Some l => Some ((phase s, tr) :: l)
          end
      end
  end.

End V1_1.

(** ** The earlier sketch (v1.0) *)

Module V1_0.

Definition RED_PIN := 7.
Definition GREEN_PIN := 6.
Definition BLUE_PIN := 5.

Definition VSYNCH_PIN := 1.
Definition HSYNCH_PIN := 0.

Definition BLACK := 0.
Definition RED := _BV RED_PIN.
Definition GREEN := _BV GREEN_PIN.
Definition BLUE := _BV BLUE_PIN.
Definition CYAN := Z.lor (_BV GREEN_PIN) (_BV BLUE_PIN).
Definition YELLOW := Z.lor (_BV RED_PIN) (_BV GREEN_PIN).
Definition MAGENTA := Z.lor (_BV RED_PIN) (_BV BLUE_PIN).
Definition WHITE := Z.lor (Z.lor (_BV RED_PIN) (_BV GREEN_PIN)) (_BV BLUE_PIN).

Definition SYNCH_PULSE := 0.
Definition BACK_PORCH := 1.
Definition ACTIVE_VIDEO := 2.
Definition FRONT_PORCH := 3.

Definition H_FRONT_PORCH_LINES := 11.
Definition H_SYNCH_PULSE_LINES := 2.
Definition H_BACK_PORCH_LINES := 31.
Definition H_ACTIVE_VIDEO_LINES := 480.

Definition nb_line_modes : list Z :=
  [ H_SYNCH_PULSE_LINES; H_BACK_PORCH_LINES; H_ACTIVE_VIDEO_LINES; H_FRONT_PORCH_LINES ].

Definition V_SYNCH_PULSE_TICKS := 61.
Definition V_BACK_PORCH_TICKS := 30.
Definition V_ACTIVE_VIDEO_TICKS := 406.
Definition V_FRONT_PORCH_TICKS := 10.
Definition V_FULL_LINE_NB_TICKS :=
  V_SYNCH_PULSE_TICKS + V_BACK_PORCH_TICKS + V_ACTIVE_VIDEO_TICKS + V_FRONT_PORCH_TICKS.

Record state : Type := mkState {
  phase : Z;         (* byte phase *)
  line_number : Z;   (* int line_number *)
  PORTD : Z;         (* PORT(RGB_PORT) *)
  PORTB : Z          (* PORT(SYNCH_PORT) *)
}.

Definition set_phase (v : Z) (s : state) : state :=
  mkState v (line_number s) (PORTD s) (PORTB s).
Definition set_line_number (v : Z) (s : state) : state :=
  mkState (phase s) v (PORTD s) (PORTB s).

Definition write_PORTD (v : Z) : M state unit :=
  fun s => Some (tt, mkState (phase s) (line_number s) (to_byte v) (PORTB s),
                 [EvPORTD (to_byte v)]).
Definition write_PORTB (v : Z) : M state unit :=
  fun s => Some (tt, mkState (phase s) (line_number s) (PORTD s) (to_byte v),
                 [EvPORTB (to_byte v)]).

Local Open Scope m_scope.

(** Arduino's [bitClear(value, bit)] is [value &= ~(1UL << bit)] and
    [bitSet(value, bit)] is [value |= (1UL << bit)], here on PORTB. *)
Definition bitClear_PORTB (bit : Z) : M state unit :=
  pb <- get PORTB ;;
  write_PORTB (Z.land pb (Z.lnot (Z.shiftl 1 bit))).
Definition bitSet_PORTB (bit : Z) : M state unit :=
  pb <- get PORTB ;;
  write_PORTB (Z.lor pb (Z.shiftl 1 bit)).

Definition incrementLineNumber : M state unit :=
  ln <- get line_number ;;
  put (set_line_number (to_int (ln + 1))) ;;
  ln <- get line_number ;;
  ph <- get phase ;;
  n <- lift_opt (array_get nb_line_modes ph) ;;
  if ln =? n then
    put (set_line_number 0) ;;
    ph <- get phase ;;
    put (set_phase (to_byte (ph + 1))) ;;
    ph <- get phase ;;
    put (set_phase (Z.land ph 3))
  else ret tt.

(** The body of [waitTimer1(byte tick)]: [do { } while (TCNT1L < tick);].
    [readings] are the values the successive reads of [TCNT1L] return.
    The result is the number of reads made and the readings left; [None]
    when the loop is still spinning after the last reading given. *)
Fixpoint waitTimer1_loop (tick : Z) (readings : list Z) : option (nat * list Z) :=
  match readings with
  | [] => None
  | r :: rest =>
      if r <? tick then
        match waitTimer1_loop tick rest with
        | Some (n, l) => Some (S n, l)
        | None => None
        end
      else Some (1%nat, rest)
  end.

(** A call [waitTimer1(e)]: the argument is converted to the [byte]
    parameter (see [wait_args]), which is what the loop compares [TCNT1L]
    with. *)
Definition waitTimer1 (e : Z) : M state unit := emit (EvWait e).

(** [ISR(TIMER1_CAPT_vect)]. *)
Definition TIMER1_CAPT_vect : M state unit :=
  waitTimer1 (V_SYNCH_PULSE_TICKS + V_BACK_PORCH_TICKS) ;;
  ph <- get phase ;;
  (if ph =? FRONT_PORCH then
     ln <- get line_number ;;
     if ln =? H_FRONT_PORCH_LINES - 1 then bitClear_PORTB HSYNCH_PIN else ret tt
   else if ph =? SYNCH_PULSE then
     ln <- get line_number ;;
     if ln =? H_SYNCH_PULSE_LINES - 1 then bitSet_PORTB HSYNCH_PIN else ret tt
   else if ph =? ACTIVE_VIDEO then
     write_PORTD RED ;;
     waitTimer1 (V_SYNCH_PULSE_TICKS + V_BACK_PORCH_TICKS + V_ACTIVE_VIDEO_TICKS ÷ 8) ;;
     write_PORTD GREEN ;;
     waitTimer1 (V_SYNCH_PULSE_TICKS + V_BACK_PORCH_TICKS + (V_ACTIVE_VIDEO_TICKS * 2) ÷ 8) ;;
     write_PORTD BLUE ;;
     waitTimer1 (V_SYNCH_PULSE_TICKS + V_BACK_PORCH_TICKS + (V_ACTIVE_VIDEO_TICKS * 3) ÷ 8) ;;
     write_PORTD CYAN ;;
     waitTimer1 (V_SYNCH_PULSE_TICKS + V_BACK_PORCH_TICKS + (V_ACTIVE_VIDEO_TICKS * 4) ÷ 8) ;;
     write_PORTD YELLOW ;;
     waitTimer1 (V_SYNCH_PULSE_TICKS + V_BACK_PORCH_TICKS + (V_ACTIVE_VIDEO_TICKS * 5) ÷ 8) ;;
     write_PORTD MAGENTA ;;
     waitTimer1 (V_SYNCH_PULSE_TICKS + V_BACK_PORCH_TICKS + (V_ACTIVE_VIDEO_TICKS * 6) ÷ 8) ;;
     write_PORTD BLACK ;;
     waitTimer1 (V_SYNCH_PULSE_TICKS + V_BACK_PORCH_TICKS + (V_ACTIVE_VIDEO_TICKS * 7) ÷ 8) ;;
     write_PORTD WHITE ;;
     waitTimer1 (V_SYNCH_PULSE_TICKS + V_BACK_PORCH_TICKS + V_ACTIVE_VIDEO_TICKS) ;;
     write_PORTD (Z.lor (_BV VSYNCH_PIN) (_BV HSYNCH_PIN))
   else ret tt) ;;
  incrementLineNumber.

Definition init_video : M state unit :=
  write_PORTD 0 ;;
  write_PORTB (Z.lor (_BV VSYNCH_PIN) (_BV HSYNCH_PIN)) ;;
  put (set_line_number 0) ;;
  put (set_phase FRONT_PORCH).

Definition setup : M state unit := init_video.

Definition reset : state := mkState 0 0 0 0.

(** The state [setup] leaves, in which interrupts are enabled. *)
Definition initial : state :=
  mkState FRONT_PORCH 0 0 (Z.lor (_BV VSYNCH_PIN) (_BV HSYNCH_PIN)).

Definition advance (n : nat) : option state := iter n incrementLineNumber initial.

Definition after (n : nat) : option state := iter n TIMER1_CAPT_vect initial.

(** The argument expressions of the nine [waitTimer1] calls of an
    active-video line, as the [int] constants the source writes. *)
Definition band_targets : list Z :=
  [ V_SYNCH_PULSE_TICKS + V_BACK_PORCH_TICKS;
    V_SYNCH_PULSE_TICKS + V_BACK_PORCH_TICKS + V_ACTIVE_VIDEO_TICKS ÷ 8;
    V_SYNCH_PULSE_TICKS + V_BACK_PORCH_TICKS + (V_ACTIVE_VIDEO_TICKS * 2) ÷ 8;
    V_SYNCH_PULSE_TICKS + V_BACK_PORCH_TICKS + (V_ACTIVE_VIDEO_TICKS * 3) ÷ 8;
    V_SYNCH_PULSE_TICKS + V_BACK_PORCH_TICKS + (V_ACTIVE_VIDEO_TICKS * 4) ÷ 8;
    V_SYNCH_PULSE_TICKS + V_BACK_PORCH_TICKS + (V_ACTIVE_VIDEO_TICKS * 5) ÷ 8;
    V_SYNCH_PULSE_TICKS + V_BACK_PORCH_TICKS + (V_ACTIVE_VIDEO_TICKS * 6) ÷ 8;
    V_SYNCH_PULSE_TICKS + V_BACK_PORCH_TICKS + (V_ACTIVE_VIDEO_TICKS * 7) ÷ 8;
    V_SYNCH_PULSE_TICKS + V_BACK_PORCH_TICKS + V_ACTIVE_VIDEO_TICKS ].

End V1_0.

(** ** The inline assembly of [waitTimer1] in [vgarduino.ino]

    The instructions are those of the [asm volatile] block, in order;
    branch targets are written as the index of the instruction the local
    label stands before.  Cycle counts are those of the AVR instruction
    set, which the source repeats in its comments: one cycle for [sub],
    [subi], [cpi] and [nop], two for [rjmp], one for a conditional branch
    not taken and two for one taken.

    [sub] takes two registers (the form with a constant is [subi]), so the
    bare operand 13 of the second instruction names register r13: what is
    subtracted is the content of that register, a parameter here.  The
    comment on that line shows that the constant 13 was meant. *)

Module AVR.

Inductive reg : Type :=
| Rtick    (* %[tick]: the register holding the parameter *)
| Rtmp     (* %[tmp]: the register loaded from TCNT1L *)
| R13.     (* r13 *)

Inductive instr : Type :=
| SUB (Rd Rr : reg)
| SUBI (Rd : reg) (K : Z)
| CPI (Rd : reg) (K : Z)
| RJMP (k : nat)
| BRCC (k : nat)
| BREQ (k : nat)
| NOP.

Record cpu : Type := mkCpu {
  r_tick : Z;
  r_tmp : Z;
  r_13 : Z;
  flag_C : bool;
  flag_Z : bool;
  pc : nat;
  cycles : Z
}.

Definition rd (c : cpu) (r : reg) : Z :=
  match r with
  | Rtick => r_tick c
  | Rtmp => r_tmp c
  | R13 => r_13 c
  end.

Definition wr (r : reg) (v : Z) (c : cpu) : cpu :=
  match r with
  | Rtick => mkCpu v (r_tmp c) (r_13 c) (flag_C c) (flag_Z c) (pc c) (cycles c)
  | Rtmp => mkCpu (r_tick c) v (r_13 c) (flag_C c) (flag_Z c) (pc c) (cycles c)
  | R13 => mkCpu (r_tick c) (r_tmp c) v (flag_C c) (flag_Z c) (pc c) (cycles c)
  end.

(** Carry and zero flags of the 8-bit subtraction [a - b]: carry is the
    borrow, set when [b] is larger than [a] as unsigned bytes. *)
Definition sub_flags (a b : Z) (c : cpu) : cpu :=
  mkCpu (r_tick c) (r_tmp c) (r_13 c) (a <? b) (to_byte (a - b) =? 0) (pc c) (cycles c).

(** Continue at instruction [k] having spent [n] cycles. *)
Definition goto (k : nat) (n : Z) (c : cpu) : cpu :=
  mkCpu (r_tick c) (r_tmp c) (r_13 c) (flag_C c) (flag_Z c) k (cycles c + n).

Definition step (i : instr) (c : cpu) : cpu :=
  match i with
  | SUB d r =>
      let a := rd c d in
      let b := rd c r in
      goto (S (pc c)) 1 (sub_flags a b (wr d (to_byte (a - b)) c))
  | SUBI d K =>
      let a := rd c d in
      goto (S (pc c)) 1 (sub_flags a K (wr d (to_byte (a - K)) c))
  | CPI d K => goto (S (pc c)) 1 (sub_flags (rd c d) K c)
  | RJMP k => goto k 2 c
  | BRCC k => if flag_C c then goto (S (pc c)) 1 c else goto k 2 c
  | BREQ k => if flag_Z c then goto k 2 c else goto (S (pc c)) 1 c
  | NOP => goto (S (pc c)) 1 c
  end.

(** Runs until control leaves the block by its end. *)
Fixpoint run (fuel : nat) (prog : list instr) (c : cpu) : option cpu :=
  match nth_error prog (pc c) with
  | None => Some c
  | Some i =>
      match fuel with
      | O => None
      | S fuel' => run fuel' prog (step i c)
      end
  end.

Definition waitTimer1_asm : list instr :=
  [ SUB Rtick Rtmp;    (*  0     sub %[tick], %[tmp]  *)
    SUB Rtick R13;     (*  1     sub %[tick], 13      *)
    RJMP 4;            (*  2     rjmp 2f              *)
    SUBI Rtick 4;      (*  3  1: subi %[tick], 4      *)
    CPI Rtick 4;       (*  4  2: cpi %[tick], 4       *)
    BRCC 3;            (*  5     brcc 1b              *)
    CPI Rtick 0;       (*  6     cpi %[tick], 0       *)
    BREQ 15;           (*  7     breq 3f              *)
    CPI Rtick 1;       (*  8     cpi %[tick], 1       *)
    BREQ 13;           (*  9     breq 1f              *)
    CPI Rtick 2;       (* 10     cpi %[tick], 2       *)
    BREQ 14;           (* 11     breq 2f              *)
    NOP;               (* 12  0: nop                  *)
    NOP;               (* 13  1: nop                  *)
    NOP ].             (* 14  2: nop                  *)
                       (* 15  3:                      *)

(** The processor on entry to the block: [tick] is the byte parameter,
    [tcnt1l] the value read from [TCNT1L] for the input operand, [r13] the
    content of register r13. *)
Definition entry (r13 tcnt1l tick : Z) : cpu :=
  mkCpu tick tcnt1l r13 false false 0 0.

(** An upper bound on the instructions one execution performs. *)
Definition fuel : nat := 256.

Definition waitTimer1 (r13 tcnt1l tick : Z) : option cpu :=
  run fuel waitTimer1_asm (entry r13 tcnt1l tick).

(** Cycles spent between entry and exit of the block. *)
Definition waitTimer1_cycles (r13 tcnt1l tick : Z) : option Z :=
  match waitTimer1 r13 tcnt1l tick with
  | Some c => Some (cycles c)
  | None => None
  end.

(** The difference the first instruction leaves in [%[tick]]. *)
Definition delta (tcnt1l tick : Z) : Z := to_byte (tick - tcnt1l).

(** What the second instruction leaves in [%[tick]]: the count the loop
    and the padding paths work on. *)
Definition remaining (r13 tcnt1l tick : Z) : Z := to_byte (delta tcnt1l tick - r13).

End AVR.

(** ** Notions the properties are stated with *)

(** The successor of a phase code in the cycle
    SYNCH_PULSE (0), BACK_PORCH (1), ACTIVE_VIDEO (2), FRONT_PORCH (3),
    SYNCH_PULSE, ... *)
Definition cyc_next (p : Z) : Z := (p + 1) mod 4.

(** [f n] being the phase after [n] calls, call [n + 1] enters phase [P]. *)
Definition enters (f : nat -> option Z) (P : Z) (n : nat) : Prop :=
  exists p, f n = Some p /\ p <> P /\ f (S n) = Some P.

(** The same, as a test. *)
Definition enters_b (f : nat -> option Z) (P : Z) (n : nat) : bool :=
  match f n, f (S n) with
  | Some p, Some q => negb (p =? P) && (q =? P)
  | _, _ => false
  end.

(** One call keeps the phase or moves it to its successor. *)
Definition step_b (f : nat -> option Z) (n : nat) : bool :=
  match f n, f (S n) with
  | Some p, Some q => (0 <=? p) && (p <=? 3) && ((q =? p) || (q =? cyc_next p))
  | _, _ => false
  end.

(** Calls made, within a frame of 524 calls counted from the initial
    state, before the call that enters a phase. *)
Definition entry_offset (P : Z) : nat :=
  if P =? 0 then 10 else if P =? 1 then 12 else if P =? 2 then 43 else 523.

(** The phases of one frame as the table of line counts gives them when
    the frame is started in the front porch, and the phase the next frame
    starts in. *)
Definition frame_phases : list Z :=
  repeat 3 11 ++ repeat 0 2 ++ repeat 1 31 ++ repeat 2 480 ++ [3].

(** The phase walks the cycle: every call returns and keeps the phase or
    moves it to its successor, never further; the calls that enter a phase
    are those at that phase's offset in each frame of 524 calls (so the
    four phases are entered in the order SYNCH_PULSE, BACK_PORCH,
    ACTIVE_VIDEO, FRONT_PORCH, once each per frame); and two consecutive
    entries into SYNCH_PULSE (phase 0) are 524 calls apart. *)
Definition phase_cycle (f : nat -> option Z) : Prop :=
  (forall n, exists p q,
      f n = Some p /\ f (S n) = Some q /\ 0 <= p <= 3 /\ (q = p \/ q = cyc_next p)) /\
  (forall n P, 0 <= P <= 3 -> (enters f P n <-> (n mod 524)%nat = entry_offset P)) /\
  (forall i j, (i < j)%nat -> enters f 0 i -> enters f 0 j ->
      (forall k, (i < k < j)%nat -> ~ enters f 0 k) -> j = (i + 524)%nat).

Fixpoint strictly_increasing (l : list Z) : Prop :=
  match l with
  | [] => True
  | x :: l' =>
      match l' with
      | [] => True
      | y :: _ => x < y /\ strictly_increasing l'
      end
  end.

(** Differences of consecutive elements: the widths of the bands a list
    of boundaries delimits. *)
Fixpoint widths (l : list Z) : list Z :=
  match l with
  | [] => []
  | x :: l' =>
      match l' with
      | [] => []
      | y :: _ => (y - x) :: widths l'
      end
  end.

(** Tick of the [k]-th band boundary of a line whose active part starts
    at tick [start] and is [active] ticks wide, the product being divided. *)
Definition boundary_tick (start active k : Z) : Z := start + (active * k) ÷ 8.

(** The boundaries of eight bands of width [active ÷ 8] each, the last
    band taking the remainder. *)
Definition equal_width_ticks (start active : Z) : list Z :=
  map (fun k => start + k * (active ÷ 8)) [0; 1; 2; 3; 4; 5; 6; 7] ++ [start + active].

(** The three colour channel bits of a value stored to the RGB port are
    off. *)
Definition blank (v : Z) : Prop :=
  Z.testbit v 7 = false /\ Z.testbit v 6 = false /\ Z.testbit v 5 = false.

Module V1_1_props.
Import V1_1.

Definition phase_after (n : nat) : option Z := option_map phase (advance n).

(** The line counter is within the allotment of the current phase. *)
Definition Inv (s : state) : Prop :=
  exists c, array_get nb_line_modes (phase s) = Some c /\ 0 < lines_left s <= c.

(** The last line of the front porch or of the synch pulse. *)
Definition boundary (s : state) : bool :=
  ((phase s =? FRONT_PORCH) || (phase s =? SYNCH_PULSE)) && (lines_left s =? 1).

Definition bands : list Z :=
  [ RED_MASK; GREEN_MASK; BLUE_MASK; CYAN_MASK; YELLOW_MASK; MAGENTA_MASK;
    BLACK_MASK; WHITE_MASK ].

(** The handler run stores the eight bands, then blanks the port. *)
Definition emits_bands (tr : list event) : bool :=
  if list_eq_dec Z.eq_dec (rgb_writes tr) (bands ++ [0]) then true else false.

(** The actions of the handler on an active-video line. *)
Definition active_line : list event :=
  [ EvWait (H_SYNCH_PULSE_TICKS + H_BACK_PORCH_TICKS);
    EvPORTD RED_MASK; EvDelay 3;
    EvPORTD GREEN_MASK; EvDelay 3;
    EvPORTD BLUE_MASK; EvDelay 3;
    EvPORTD CYAN_MASK; EvDelay 3;
    EvPORTD YELLOW_MASK; EvDelay 3;
    EvPORTD MAGENTA_MASK; EvDelay 3;
    EvPORTD BLACK_MASK; EvDelay 3;
    EvPORTD WHITE_MASK; EvDelay 3;
    EvPORTD 0 ].

(** The synch port with the vertical synch line inverted. *)
Definition toggled (pb : Z) : Z := Z.lxor pb (_BV VSYNCH_PIN).

(** The actions of the handler before it calls [incrementLineNumber],
    with the values it leaves in PORTD and PORTB. *)
Definition line_actions (s : state) : list event * Z * Z :=
  if phase s =? ACTIVE_VIDEO then (active_line, 0, PORTB s)
  else if boundary s then
    ([EvWait (H_SYNCH_PULSE_TICKS + H_BACK_PORCH_TICKS); EvPORTB (to_byte (toggled (PORTB s)))],
     PORTD s, to_byte (toggled (PORTB s)))
  else ([], PORTD s, PORTB s).

(** The lines of the first frame: the phase each one is handled in and
    the actions of its handler run. *)
Definition frame : list (Z * list event) :=
  repeat (FRONT_PORCH, []) 10
  ++ [ (FRONT_PORCH, [EvWait (H_SYNCH_PULSE_TICKS + H_BACK_PORCH_TICKS); EvPORTB 2]);
       (SYNCH_PULSE, []);
       (SYNCH_PULSE, [EvWait (H_SYNCH_PULSE_TICKS + H_BACK_PORCH_TICKS); EvPORTB 3]) ]
  ++ repeat (BACK_PORCH, []) 31
  ++ repeat (ACTIVE_VIDEO, active_line) 480.

(** Invariant of the handler: the counter is within the allotment and the
    vertical synch line is low during the synch pulse only. *)
Definition InvI (s : state) : Prop :=
  Inv s /\ PORTB s = (if phase s =? SYNCH_PULSE then 2 else 3).

End V1_1_props.

Module V1_0_props.
Import V1_0.

Definition phase_after (n : nat) : option Z := option_map phase (advance n).

(** The line index is within the allotment of the current phase. *)
Definition Inv (s : state) : Prop :=
  exists c, array_get nb_line_modes (phase s) = Some c /\ 0 <= line_number s < c.

(** The last line of the front porch or of the synch pulse. *)
Definition boundary (s : state) : bool :=
  ((phase s =? FRONT_PORCH) && (line_number s =? H_FRONT_PORCH_LINES - 1))
  || ((phase s =? SYNCH_PULSE) && (line_number s =? H_SYNCH_PULSE_LINES - 1)).

Definition bands : list Z := [ RED; GREEN; BLUE; CYAN; YELLOW; MAGENTA; BLACK; WHITE ].

(** The byte [waitTimer1] compares [TCNT1L] with in its [k]-th call of an
    active-video line. *)
Definition effective (k : nat) : Z := to_byte (nth k band_targets 0).

(** A call of [waitTimer1] on each target followed by a store of the
    paired value. *)
Fixpoint placed (targets values : list Z) : list event :=
  match targets, values with
  | t :: targets', v :: values' => EvWait t :: EvPORTD v :: placed targets' values'
  | _, _ => []
  end.

(** The value the handler leaves in the RGB port after the last band. *)
Definition rgb_rest : Z := Z.lor (_BV VSYNCH_PIN) (_BV HSYNCH_PIN).

(** The actions of the handler on an active-video line. *)
Definition active_line : list event := placed band_targets (bands ++ [rgb_rest]).

(** The synch port with the line on [HSYNCH_PIN] cleared, and set. *)
Definition cleared (pb : Z) : Z := Z.land pb (Z.lnot (Z.shiftl 1 HSYNCH_PIN)).
Definition raised (pb : Z) : Z := Z.lor pb (Z.shiftl 1 HSYNCH_PIN).

Definition first_wait : event := EvWait (V_SYNCH_PULSE_TICKS + V_BACK_PORCH_TICKS).

(** The actions of the handler before it calls [incrementLineNumber],
    with the values it leaves in PORTD and PORTB. *)
Definition line_actions (s : state) : list event * Z * Z :=
  if phase s =? FRONT_PORCH then
    if line_number s =? H_FRONT_PORCH_LINES - 1
    then ([first_wait; EvPORTB (to_byte (cleared (PORTB s)))], PORTD s, to_byte (cleared (PORTB s)))
    else ([first_wait], PORTD s, PORTB s)
  else if phase s =? SYNCH_PULSE then
    if line_number s =? H_SYNCH_PULSE_LINES - 1
    then ([first_wait; EvPORTB (to_byte (raised (PORTB s)))], PORTD s, to_byte (raised (PORTB s)))
    else ([first_wait], PORTD s, PORTB s)
  else if phase s =? ACTIVE_VIDEO then (active_line, rgb_rest, PORTB s)
  else ([first_wait], PORTD s, PORTB s).

(** Invariant of the handler: the index is within the allotment and the
    synch line the handler drives is low during the synch pulse only. *)
Definition InvI (s : state) : Prop :=
  Inv s /\ PORTB s = (if phase s =? SYNCH_PULSE then 2 else 3).

End V1_0_props.

Module AVR_props.
Import AVR.

(** Cycles the block spends when [d] is the count its second instruction
    leaves: [d + 12] unless [d] is a multiple of 4, [d + 9] when it is. *)
Definition cost (d : Z) : Z := d + (if d mod 4 =? 0 then 9 else 12).

(** The processor after the first four instructions (the two [sub], the
    [rjmp] and the first [cpi]), [d] being the count left in [%[tick]]. *)
Definition at_loop (d : Z) : cpu :=
  mkCpu d 0 0 (d <? 4) (to_byte (d - 4) =? 0) 5 5.

(** The same processor with other contents in [%[tmp]] and r13. *)
Definition retarget (t r : Z) (c : cpu) : cpu :=
  mkCpu (r_tick c) t r (flag_C c) (flag_Z c) (pc c) (cycles c).

(** The instruction reads and writes no register but [%[tick]] and, when
    it is a jump, goes to instruction [lo] or further. *)
Definition tick_only (lo : nat) (i : instr) : bool :=
  match i with
  | SUB _ _ => false
  | SUBI Rtick _ | CPI Rtick _ => true
  | SUBI _ _ | CPI _ _ => false
  | RJMP k | BRCC k | BREQ k => (lo <=? k)%nat
  | NOP => true
  end.

End AVR_props.

(** ** Further notions: pin directions, the two sketches side by side *)

Module Pins.

(** [init_io] of [vgarduino.ino] and [init_video] of the v1.0 sketch
    first store to the data-direction registers: these are the values
    stored to [DDR(RGB_PORT)] and [DDR(SYNCH_PORT)].  A bit set makes the
    pin an output. *)
Definition V1_1_DDRD : Z :=
  Z.lor (Z.lor (_BV V1_1.RED_PIN) (_BV V1_1.GREEN_PIN)) (_BV V1_1.BLUE_PIN).
Definition V1_1_DDRB : Z := Z.lor (_BV V1_1.VSYNCH_PIN) (_BV V1_1.HSYNCH_PIN).
Definition V1_0_DDRD : Z :=
  Z.lor (Z.lor (_BV V1_0.RED_PIN) (_BV V1_0.GREEN_PIN)) (_BV V1_0.BLUE_PIN).
Definition V1_0_DDRB : Z := Z.lor (_BV V1_0.VSYNCH_PIN) (_BV V1_0.HSYNCH_PIN).

(** The value sets no bit of the port outside the pins [ddr] makes
    outputs. *)
Definition within (ddr v : Z) : bool := Z.land v (Z.lnot ddr) =? 0.

End Pins.

Module Both.

(** The two sketches are at the same place of the frame: same phase,
    and the lines [vgarduino.ino] has left plus the lines the v1.0 sketch
    has counted make the allotment of the phase. *)
Definition lockstep (s1 : V1_1.state) (s0 : V1_0.state) : Prop :=
  V1_1.phase s1 = V1_0.phase s0 /\
  exists c, array_get V1_1.nb_line_modes (V1_1.phase s1) = Some c /\
            array_get V1_0.nb_line_modes (V1_0.phase s0) = Some c /\
            0 < V1_1.lines_left s1 <= c /\
            V1_1.lines_left s1 + V1_0.line_number s0 = c.

End Both.

(** ** Machine integers and arrays *)

Lemma to_int_small (x : Z) : -32768 <= x < 32768 -> to_int x = x.
Proof.
  intros H. unfold to_int. rewrite Z.mod_small; lia.
Qed.

Lemma to_byte_small (x : Z) : 0 <= x < 256 -> to_byte x = x.
Proof. intros H. unfold to_byte. now apply Z.mod_small. Qed.

Lemma land3_range (x : Z) : 0 <= Z.land x 3 <= 3.
Proof.
  change 3 with (Z.ones 2) at 1 2. rewrite Z.land_ones by lia.
  change (2 ^ 2) with 4. pose proof (Z.mod_pos_bound x 4). lia.
Qed.

Lemma array_get_4 (a b c d i : Z) :
  0 <= i <= 3 ->
  array_get [a; b; c; d] i = Some (if i =? 0 then a else if i =? 1 then b else if i =? 2 then c else d).
Proof.
  intros H.
  assert (i = 0 \/ i = 1 \/ i = 2 \/ i = 3) as [->|[->|[->| ->]]] by lia; reflexivity.
Qed.

Lemma array_get_4_inv (a b c d i v : Z) :
  array_get [a; b; c; d] i = Some v -> 0 <= i <= 3.
Proof.
  unfold array_get. destruct (Z.ltb_spec i 0) as [Hneg|Hpos]; [discriminate|].
  intros H. assert (Z.to_nat i < 4)%nat.
  { apply (nth_error_Some [a; b; c; d]). congruence. }
  lia.
Qed.

(** The masked successor is the successor in the cycle. *)
Lemma masked_next (p : Z) : 0 <= p <= 3 -> Z.land (to_byte (p + 1)) 3 = cyc_next p.
Proof.
  intros H. unfold cyc_next.
  assert (p = 0 \/ p = 1 \/ p = 2 \/ p = 3) as [->|[->|[->| ->]]] by lia; reflexivity.
Qed.

(** ** Iterating a handler *)

Section Iter.
Context {St : Type} (m : M St unit).

Lemma iter_add (a b : nat) (s : St) :
  iter (a + b) m s =
  match iter a m s with Some s' => iter b m s' | None => None end.
Proof.
  revert s. induction a as [|a IH]; intros s; simpl; [reflexivity|].
  destruct (exec m s) as [s'|]; [apply IH | reflexivity].
Qed.

Lemma iter_S_r (n : nat) (s : St) :
  iter (S n) m s =
  match iter n m s with Some s' => exec m s' | None => None end.
Proof.
  replace (S n) with (n + 1)%nat by lia. rewrite iter_add.
  destruct (iter n m s) as [s'|]; [|reflexivity].
  simpl. destruct (exec m s'); reflexivity.
Qed.

(** A state that comes back after [p] runs comes back for ever. *)
Lemma iter_period (p : nat) (s0 : St) :
  iter p m s0 = Some s0 ->
  forall q r, iter (q * p + r) m s0 = iter r m s0.
Proof.
  intros Hp q r. induction q as [|q IH]; [reflexivity|].
  replace (S q * p + r)%nat with (p + (q * p + r))%nat by lia.
  rewrite iter_add, Hp. exact IH.
Qed.

Lemma trajectory_nth (n : nat) :
  forall s l, trajectory n m s = Some l ->
  forall r, (r <= n)%nat -> iter r m s = nth_error l r.
Proof.
  induction n as [|n IH]; intros s l H r Hr; simpl in H.
  - injection H as <-. replace r with 0%nat by lia. reflexivity.
  - destruct (exec m s) as [s'|] eqn:E; [|discriminate].
    destruct (trajectory n m s') as [l'|] eqn:T; [|discriminate].
    injection H as <-. destruct r as [|r]; [reflexivity|].
    simpl. rewrite E. apply (IH s' l' T). lia.
Qed.

(** An invariant of the handler holds after any number of runs, none of
    which fails. *)
Lemma iter_invariant (I : St -> Prop) :
  (forall s, I s -> exists s', exec m s = Some s' /\ I s') ->
  forall n s, I s -> exists s', iter n m s = Some s' /\ I s'.
Proof.
  intros Hstep n. induction n as [|n IH]; intros s Hs; simpl.
  - now exists s.
  - destruct (Hstep s Hs) as (s1 & -> & H1). now apply IH.
Qed.
End Iter.

Lemma forallb_ext_in {A} (f g : A -> bool) (l : list A) :
  (forall x, In x l -> f x = g x) -> forallb f l = forallb g l.
Proof.
  induction l as [|a l IH]; intros H; simpl; [reflexivity|].
  rewrite (H a) by now left. rewrite IH; [reflexivity|].
  intros x Hx. apply H. now right.
Qed.

(** A property of a periodic sequence holds everywhere when it holds on
    one period. *)
Lemma periodic_table (p : nat) (P : nat -> Prop) (b : nat -> bool) :
  (0 < p)%nat ->
  (forall n, P (n mod p)%nat -> P n) ->
  (forall r, b r = true -> P r) ->
  forallb b (seq 0 p) = true ->
  forall n, P n.
Proof.
  intros Hp Hper Hb Hall n. apply Hper, Hb.
  rewrite forallb_forall in Hall. apply Hall, in_seq.
  pose proof (Nat.mod_upper_bound n p). lia.
Qed.

(** ** The phase state machine of [vgarduino.ino] *)

Section V1_1_machine.
Import V1_1 V1_1_props.

(** What one call of [incrementLineNumber] does, on any state: the read
    of [nb_line_modes] follows the masking, so it is always in bounds. *)
Lemma V11_incr_spec (s : state) :
  exists n,
    array_get nb_line_modes (Z.land (to_byte (phase s + 1)) 3) = Some n /\
    incrementLineNumber s =
    Some (tt,
          if to_int (lines_left s - 1) =? 0
          then mkState (Z.land (to_byte (phase s + 1)) 3) n (PORTD s) (PORTB s)
          else mkState (phase s) (to_int (lines_left s - 1)) (PORTD s) (PORTB s),
          []).
Proof.
  destruct s as [ph ll pd pb]; simpl.
  pose proof (land3_range (to_byte (ph + 1))) as Hr.
  eexists. split; [apply array_get_4; exact Hr|].
  unfold incrementLineNumber, bind, get, put; simpl.
  destruct (to_int (ll - 1) =? 0); [|reflexivity].
  unfold nb_line_modes. rewrite array_get_4 by exact Hr. reflexivity.
Qed.

(** A call that does not exhaust the allotment only decrements. *)
Lemma V11_incr_inner (s : state) :
  1 < lines_left s <= 32767 ->
  exec incrementLineNumber s =
  Some (mkState (phase s) (lines_left s - 1) (PORTD s) (PORTB s)).
Proof.
  intros H. destruct (V11_incr_spec s) as (n & _ & E).
  unfold exec. rewrite E, to_int_small by lia.
  destruct (Z.eqb_spec (lines_left s - 1) 0); [lia | reflexivity].
Qed.

(** The call on the last line of a phase moves to the next phase and
    reloads the counter from the table. *)
Lemma V11_incr_last (s : state) :
  lines_left s = 1 -> 0 <= phase s <= 3 ->
  exists n,
    array_get nb_line_modes (cyc_next (phase s)) = Some n /\
    exec incrementLineNumber s =
    Some (mkState (cyc_next (phase s)) n (PORTD s) (PORTB s)).
Proof.
  intros Hl Hp. destruct (V11_incr_spec s) as (n & Hn & E).
  rewrite masked_next in Hn, E by exact Hp.
  exists n. split; [exact Hn|].
  unfold exec. rewrite E, Hl. reflexivity.
Qed.

Lemma V11_Inv_phase (s : state) : Inv s -> 0 <= phase s <= 3.
Proof. intros (c & Hc & _). eapply array_get_4_inv, Hc. Qed.

Lemma V11_Inv_bound (s : state) : Inv s -> 0 < lines_left s <= 480.
Proof.
  intros (c & Hc & Hl). pose proof (array_get_4_inv _ _ _ _ _ _ Hc) as Hp.
  unfold nb_line_modes in Hc. rewrite array_get_4 in Hc by exact Hp.
  injection Hc as <-.
  assert (phase s = 0 \/ phase s = 1 \/ phase s = 2 \/ phase s = 3) as [E|[E|[E|E]]] by lia;
    rewrite E in Hl; simpl in Hl;
    unfold V_SYNCH_PULSE_LINES, V_BACK_PORCH_LINES, V_ACTIVE_VIDEO_LINES, V_FRONT_PORCH_LINES in Hl;
    lia.
Qed.

Lemma V11_table_pos (p n : Z) : array_get nb_line_modes p = Some n -> 0 < n.
Proof.
  intros H. pose proof (array_get_4_inv _ _ _ _ _ _ H) as Hp.
  unfold nb_line_modes in H. rewrite array_get_4 in H by exact Hp. injection H as <-.
  assert (p = 0 \/ p = 1 \/ p = 2 \/ p = 3) as [->|[->|[->| ->]]] by lia; reflexivity.
Qed.

Lemma V11_incr_Inv (s : state) :
  Inv s -> exists s', exec incrementLineNumber s = Some s' /\ Inv s'.
Proof.
  intros HI. pose proof (V11_Inv_phase s HI) as Hp. pose proof (V11_Inv_bound s HI) as Hb.
  destruct (Z.eq_dec (lines_left s) 1) as [E|NE].
  - destruct (V11_incr_last s E Hp) as (n & Hn & ->).
    eexists. split; [reflexivity|]. exists n. simpl. split; [exact Hn|].
    pose proof (V11_table_pos _ _ Hn). lia.
  - rewrite V11_incr_inner by lia. eexists. split; [reflexivity|].
    destruct HI as (c & Hc & Hl). exists c. simpl. split; [exact Hc | lia].
Qed.

Lemma V11_Inv_initial : Inv initial.
Proof. exists 11. split; [reflexivity | simpl; unfold V_FRONT_PORCH_LINES; lia]. Qed.

Lemma V11_setup : exec setup reset = Some initial.
Proof. reflexivity. Qed.

(** [n] calls inside a phase count [n] lines down. *)
Lemma V11_countdown (n : nat) :
  forall s, Z.of_nat n < lines_left s <= 32767 ->
  iter n incrementLineNumber s =
  Some (mkState (phase s) (lines_left s - Z.of_nat n) (PORTD s) (PORTB s)).
Proof.
  induction n as [|n IH]; intros s H.
  - simpl. rewrite Z.sub_0_r. now destruct s.
  - rewrite iter_S_r, IH by lia. rewrite V11_incr_inner by (simpl; lia).
    simpl. do 2 f_equal. lia.
Qed.
End V1_1_machine.

(** ** The phase state machine of the v1.0 sketch *)

Section V1_0_machine.
Import V1_0 V1_0_props.

(** What one call of [incrementLineNumber] does: here the table is read
    with the current phase, before the masking. *)
Lemma V10_incr_spec (s : state) (c : Z) :
  array_get nb_line_modes (phase s) = Some c ->
  incrementLineNumber s =
  Some (tt,
        if to_int (line_number s + 1) =? c
        then mkState (Z.land (to_byte (phase s + 1)) 3) 0 (PORTD s) (PORTB s)
        else mkState (phase s) (to_int (line_number s + 1)) (PORTD s) (PORTB s),
        []).
Proof.
  destruct s as [ph ln pd pb]; simpl. intros Hc.
  unfold incrementLineNumber, bind, get, put; simpl.
  rewrite Hc; simpl.
  destruct (to_int (ln + 1) =? c); reflexivity.
Qed.

(** Outside the table the read, and the call with it, has no result. *)
Lemma V10_incr_out_of_bounds (s : state) :
  array_get nb_line_modes (phase s) = None -> incrementLineNumber s = None.
Proof.
  destruct s as [ph ln pd pb]; simpl. intros Hc.
  unfold incrementLineNumber, bind, get, put; simpl.
  rewrite Hc. reflexivity.
Qed.

Lemma V10_Inv_phase (s : state) : Inv s -> 0 <= phase s <= 3.
Proof. intros (c & Hc & _). eapply array_get_4_inv, Hc. Qed.

Lemma V10_table_bound (p n : Z) : array_get nb_line_modes p = Some n -> 0 < n <= 480.
Proof.
  intros H. pose proof (array_get_4_inv _ _ _ _ _ _ H) as Hp.
  unfold nb_line_modes in H. rewrite array_get_4 in H by exact Hp. injection H as <-.
  assert (p = 0 \/ p = 1 \/ p = 2 \/ p = 3) as [->|[->|[->| ->]]] by lia;
    simpl;
    unfold H_SYNCH_PULSE_LINES, H_BACK_PORCH_LINES, H_ACTIVE_VIDEO_LINES, H_FRONT_PORCH_LINES;
    lia.
Qed.

Lemma V10_table_total (p : Z) : 0 <= p <= 3 -> exists n, array_get nb_line_modes p = Some n.
Proof. intros H. eexists. apply array_get_4, H. Qed.

(** A call that does not reach the allotment only increments. *)
Lemma V10_incr_inner (s : state) (c : Z) :
  array_get nb_line_modes (phase s) = Some c ->
  0 <= line_number s -> line_number s + 1 < c ->
  exec incrementLineNumber s =
  Some (mkState (phase s) (line_number s + 1) (PORTD s) (PORTB s)).
Proof.
  intros Hc H0 H1. pose proof (V10_table_bound _ _ Hc).
  unfold exec. rewrite (V10_incr_spec s c Hc), to_int_small by lia.
  destruct (Z.eqb_spec (line_number s + 1) c); [lia | reflexivity].
Qed.

(** The call on the last line of a phase moves to the next phase and
    restarts the index. *)
Lemma V10_incr_last (s : state) (c : Z) :
  array_get nb_line_modes (phase s) = Some c ->
  line_number s + 1 = c ->
  exec incrementLineNumber s =
  Some (mkState (cyc_next (phase s)) 0 (PORTD s) (PORTB s)).
Proof.
  intros Hc H1. pose proof (V10_table_bound _ _ Hc).
  pose proof (array_get_4_inv _ _ _ _ _ _ Hc) as Hp.
  unfold exec. rewrite (V10_incr_spec s c Hc), to_int_small by lia.
  rewrite masked_next by exact Hp.
  destruct (Z.eqb_spec (line_number s + 1) c); [reflexivity | lia].
Qed.

Lemma V10_incr_Inv (s : state) :
  Inv s -> exists s', exec incrementLineNumber s = Some s' /\ Inv s'.
Proof.
  intros (c & Hc & Hl).
  destruct (Z.eq_dec (line_number s + 1) c) as [E|NE].
  - rewrite (V10_incr_last s c Hc E). eexists. split; [reflexivity|].
    pose proof (array_get_4_inv _ _ _ _ _ _ Hc) as Hp.
    assert (0 <= cyc_next (phase s) <= 3) as Hn
      by (unfold cyc_next; pose proof (Z.mod_pos_bound (phase s + 1) 4); lia).
    destruct (V10_table_total _ Hn) as (n & En).
    exists n. simpl. split; [exact En|]. pose proof (V10_table_bound _ _ En). lia.
  - rewrite (V10_incr_inner s c Hc) by lia. eexists. split; [reflexivity|].
    exists c. simpl. split; [exact Hc | lia].
Qed.

Lemma V10_Inv_initial : Inv initial.
Proof. exists 11. split; [reflexivity | simpl; unfold H_FRONT_PORCH_LINES; lia]. Qed.

Lemma V10_setup : exec setup reset = Some initial.
Proof. reflexivity. Qed.
End V1_0_machine.

(** ** The interrupt handlers *)

Section V1_1_handler.
Import V1_1 V1_1_props.

Lemma V11_incr_result (s : state) :
  incrementLineNumber s =
  match exec incrementLineNumber s with Some s2 => Some (tt, s2, []) | None => None end.
Proof.
  destruct (V11_incr_spec s) as (n & _ & E). unfold exec. rewrite E. reflexivity.
Qed.

(** The handler performs the actions of its line, then counts the line. *)
Lemma V11_isr_spec (s : state) :
  TIMER1_CAPT_vect s =
  let '(tr, pd, pb) := line_actions s in
  match exec incrementLineNumber (mkState (phase s) (lines_left s) pd pb) with
  | Some s2 => Some (tt, s2, tr)
  | None => None
  end.
Proof.
  destruct s as [ph ll pd pb].
  unfold TIMER1_CAPT_vect, line_actions, boundary, bind, get; simpl.
  destruct (ph =? ACTIVE_VIDEO); simpl.
  - rewrite V11_incr_result. destruct (exec incrementLineNumber _); reflexivity.
  - destruct ((ph =? FRONT_PORCH) || (ph =? SYNCH_PULSE)); simpl.
    + destruct (ll =? 1); simpl;
        rewrite V11_incr_result; destruct (exec incrementLineNumber _); reflexivity.
    + rewrite V11_incr_result. destruct (exec incrementLineNumber _); reflexivity.
Qed.

Lemma V11_isr_InvI (s : state) :
  InvI s -> exists s', exec TIMER1_CAPT_vect s = Some s' /\ InvI s'.
Proof.
  intros [HI HB]. pose proof (V11_Inv_phase s HI) as Hp.
  pose proof (V11_Inv_bound s HI) as Hb.
  unfold exec. rewrite V11_isr_spec.
  destruct s as [ph ll pd pb]; simpl in *.
  unfold line_actions, boundary; simpl.
  assert (ph = 0 \/ ph = 1 \/ ph = 2 \/ ph = 3) as [->|[->|[->| ->]]] by lia;
    subst pb; simpl;
    (destruct (Z.eqb_spec ll 1) as [->|NE]; simpl;
     [ (* last line of the phase: the next one starts with its allotment *)
       eexists; split; [reflexivity|]; split; [|reflexivity];
       eexists; split; [reflexivity|]; cbv; intuition congruence
     | (* any other line *)
       rewrite V11_incr_inner by (simpl; lia); simpl;
       eexists; split; [reflexivity|]; split; [|reflexivity];
       destruct HI as (c & Hc & Hl); exists c; simpl in *; split; [exact Hc | lia] ]).
Qed.

(** The handler always returns; its actions and the ports it leaves are
    those of its line. *)
Lemma V11_isr_ports (s : state) :
  exists s',
    TIMER1_CAPT_vect s = Some (tt, s', fst (fst (line_actions s))) /\
    PORTD s' = snd (fst (line_actions s)) /\ PORTB s' = snd (line_actions s).
Proof.
  rewrite V11_isr_spec. destruct (line_actions s) as [[tr pd] pb]. simpl.
  destruct (V11_incr_spec (mkState (phase s) (lines_left s) pd pb)) as (n & _ & E).
  unfold exec. rewrite E. simpl.
  destruct (to_int (lines_left s - 1) =? 0); eexists; repeat split; reflexivity.
Qed.

Lemma V11_InvI_initial : InvI initial.
Proof. split; [exact V11_Inv_initial | reflexivity]. Qed.

Lemma V11_after_InvI (n : nat) : exists s, after n = Some s /\ InvI s.
Proof. apply iter_invariant; [exact V11_isr_InvI | exact V11_InvI_initial]. Qed.
End V1_1_handler.

Section V1_0_handler.
Import V1_0 V1_0_props.

Lemma V10_incr_result (s : state) :
  incrementLineNumber s =
  match exec incrementLineNumber s with Some s2 => Some (tt, s2, []) | None => None end.
Proof.
  unfold exec. destruct (array_get nb_line_modes (phase s)) as [c|] eqn:E.
  - rewrite (V10_incr_spec s c E). reflexivity.
  - rewrite (V10_incr_out_of_bounds s E). reflexivity.
Qed.

(** The handler performs the actions of its line, then counts the line. *)
Lemma V10_isr_spec (s : state) :
  TIMER1_CAPT_vect s =
  let '(tr, pd, pb) := line_actions s in
  match exec incrementLineNumber (mkState (phase s) (line_number s) pd pb) with
  | Some s2 => Some (tt, s2, tr)
  | None => None
  end.
Proof.
  destruct s as [ph ln pd pb].
  unfold TIMER1_CAPT_vect, line_actions, bind, get; simpl.
  destruct (ph =? FRONT_PORCH); simpl;
    [destruct (ln =? _); simpl|
     destruct (ph =? SYNCH_PULSE); simpl;
     [destruct (ln =? _); simpl|
      destruct (ph =? ACTIVE_VIDEO); simpl]];
    rewrite V10_incr_result; destruct (exec incrementLineNumber _); reflexivity.
Qed.

(** The top of a phase satisfies the invariant. *)
Lemma V10_Inv_top (p pd pb : Z) :
  0 <= p <= 3 -> Inv (mkState p 0 pd pb).
Proof.
  intros H. destruct (V10_table_total p H) as (n & E).
  exists n. simpl. split; [exact E|]. pose proof (V10_table_bound _ _ E). lia.
Qed.

Lemma V10_isr_InvI (s : state) :
  InvI s -> exists s', exec TIMER1_CAPT_vect s = Some s' /\ InvI s'.
Proof.
  intros [HI HB]. pose proof (V10_Inv_phase s HI) as Hp.
  destruct HI as (c & Hc & Hl). pose proof (V10_table_bound _ _ Hc) as Hb.
  unfold exec. rewrite V10_isr_spec.
  destruct s as [ph ln pd pb]; simpl in *.
  unfold line_actions; simpl.
  assert (ph = 0 \/ ph = 1 \/ ph = 2 \/ ph = 3) as [->|[->|[->| ->]]] by lia;
    simpl; injection Hc as <-; subst pb;
    unfold H_SYNCH_PULSE_LINES, H_BACK_PORCH_LINES, H_ACTIVE_VIDEO_LINES,
      H_FRONT_PORCH_LINES in *.
  - destruct (Z.eqb_spec ln 1) as [->|NE]; simpl.
    + eexists; split; [reflexivity|]. split; [apply V10_Inv_top; cbv | reflexivity]; easy.
    + rewrite (V10_incr_inner _ 2) by (simpl; try reflexivity; lia).
      eexists; split; [reflexivity|].
      split; [|reflexivity]. exists 2; split; [reflexivity | simpl; lia].
  - destruct (Z.eq_dec (ln + 1) 31) as [E|NE].
    + rewrite (V10_incr_last _ 31) by (simpl; try reflexivity; lia).
      eexists; split; [reflexivity|]. split; [apply V10_Inv_top; cbv | reflexivity]; easy.
    + rewrite (V10_incr_inner _ 31) by (simpl; try reflexivity; lia).
      eexists; split; [reflexivity|].
      split; [|reflexivity]. exists 31; split; [reflexivity | simpl; lia].
  - destruct (Z.eq_dec (ln + 1) 480) as [E|NE].
    + rewrite (V10_incr_last _ 480) by (simpl; try reflexivity; lia).
      eexists; split; [reflexivity|]. split; [apply V10_Inv_top; cbv | reflexivity]; easy.
    + rewrite (V10_incr_inner _ 480) by (simpl; try reflexivity; lia).
      eexists; split; [reflexivity|].
      split; [|reflexivity]. exists 480; split; [reflexivity | simpl; lia].
  - destruct (Z.eqb_spec ln 10) as [->|NE]; simpl.
    + eexists; split; [reflexivity|]. split; [apply V10_Inv_top; cbv | reflexivity]; easy.
    + rewrite (V10_incr_inner _ 11) by (simpl; try reflexivity; lia).
      eexists; split; [reflexivity|].
      split; [|reflexivity]. exists 11; split; [reflexivity | simpl; lia].
Qed.

(** The handler returns when the phase is one of the table; its actions
    and the ports it leaves are those of its line. *)
Lemma V10_isr_ports (s : state) :
  0 <= phase s <= 3 ->
  exists s',
    TIMER1_CAPT_vect s = Some (tt, s', fst (fst (line_actions s))) /\
    PORTD s' = snd (fst (line_actions s)) /\ PORTB s' = snd (line_actions s).
Proof.
  intros Hp. rewrite V10_isr_spec. destruct (line_actions s) as [[tr pd] pb]. simpl.
  destruct (V10_table_total _ Hp) as (c & Hc).
  unfold exec.
  rewrite (V10_incr_spec (mkState (phase s) (line_number s) pd pb) c Hc). simpl.
  destruct (to_int (line_number s + 1) =? c); eexists; repeat split; reflexivity.
Qed.

Lemma V10_InvI_initial : InvI initial.
Proof. split; [exact V10_Inv_initial | reflexivity]. Qed.

Lemma V10_after_InvI (n : nat) : exists s, after n = Some s /\ InvI s.
Proof. apply iter_invariant; [exact V10_isr_InvI | exact V10_InvI_initial]. Qed.
End V1_0_handler.

(** ** Properties of the phase state machine *)

(** C7.  The counter stays within the allotment of the current phase:
    [0 < lines_left <= nb_line_modes[phase]] in [vgarduino.ino], and
    [0 <= line_number < nb_line_modes[phase]] in the v1.0 sketch.  The
    predicate holds in the state [setup] leaves and every call of
    [incrementLineNumber] returns and preserves it; the call made on the
    last line of a phase moves to the next phase of the cycle and reloads
    the counter (with the next phase's line count, respectively with 0),
    any other call leaves the phase as it is and counts one line. *)
Theorem counter_within_allotment :
  (V1_1_props.Inv V1_1.initial /\
   forall s, V1_1_props.Inv s ->
     exists s', exec V1_1.incrementLineNumber s = Some s' /\ V1_1_props.Inv s' /\
       V1_1.PORTD s' = V1_1.PORTD s /\ V1_1.PORTB s' = V1_1.PORTB s /\
       (V1_1.lines_left s = 1 ->
          V1_1.phase s' = cyc_next (V1_1.phase s) /\
          array_get V1_1.nb_line_modes (V1_1.phase s') = Some (V1_1.lines_left s')) /\
       (V1_1.lines_left s <> 1 ->
          V1_1.phase s' = V1_1.phase s /\ V1_1.lines_left s' = V1_1.lines_left s - 1))
  /\
  (V1_0_props.Inv V1_0.initial /\
   forall s c, V1_0_props.Inv s -> array_get V1_0.nb_line_modes (V1_0.phase s) = Some c ->
     exists s', exec V1_0.incrementLineNumber s = Some s' /\ V1_0_props.Inv s' /\
       V1_0.PORTD s' = V1_0.PORTD s /\ V1_0.PORTB s' = V1_0.PORTB s /\
       (V1_0.line_number s + 1 = c ->
          V1_0.phase s' = cyc_next (V1_0.phase s) /\ V1_0.line_number s' = 0) /\
       (V1_0.line_number s + 1 <> c ->
          V1_0.phase s' = V1_0.phase s /\ V1_0.line_number s' = V1_0.line_number s + 1)).
Proof.
  split; (split; [first [exact V11_Inv_initial | exact V10_Inv_initial]|]).
  - intros s HI. destruct (V11_incr_Inv s HI) as (s' & E & HI').
    exists s'. split; [exact E|]. split; [exact HI'|].
    pose proof (V11_Inv_phase s HI) as Hp. pose proof (V11_Inv_bound s HI) as Hb.
    destruct (Z.eq_dec (V1_1.lines_left s) 1) as [E1|NE1].
    + destruct (V11_incr_last s E1 Hp) as (n & Hn & E2).
      rewrite E2 in E. injection E as <-. simpl.
      repeat split; try reflexivity; try assumption; intros; congruence.
    + rewrite V11_incr_inner in E by lia. injection E as <-. simpl.
      repeat split; try reflexivity; intros; congruence.
  - intros s c HI Hc. destruct (V10_incr_Inv s HI) as (s' & E & HI').
    exists s'. split; [exact E|]. split; [exact HI'|].
    destruct HI as (c0 & Hc0 & Hl). assert (c0 = c) as -> by congruence.
    destruct (Z.eq_dec (V1_0.line_number s + 1) c) as [E1|NE1].
    + rewrite (V10_incr_last s c Hc E1) in E. injection E as <-. simpl.
      repeat split; try reflexivity; intros; congruence.
    + rewrite (V10_incr_inner s c Hc) in E by lia. injection E as <-. simpl.
      repeat split; try reflexivity; intros; congruence.
Qed.

(** ** The walk of the phase over a frame *)

Section Iter_mod.
Context {St : Type} (m : M St unit).

Lemma iter_mod (p : nat) (s0 : St) :
  (0 < p)%nat -> iter p m s0 = Some s0 ->
  forall n k, iter (n + k) m s0 = iter (n mod p + k) m s0.
Proof.
  intros Hp Hper n k.
  rewrite (Nat.div_mod_eq n p) at 1.
  replace (p * (n / p) + n mod p + k)%nat with ((n / p) * p + (n mod p + k))%nat by lia.
  now apply iter_period.
Qed.

Lemma iter_mod_0 (p : nat) (s0 : St) :
  (0 < p)%nat -> iter p m s0 = Some s0 ->
  forall n, iter n m s0 = iter (n mod p) m s0.
Proof.
  intros Hp Hper n. rewrite <- (Nat.add_0_r n) at 1. rewrite <- (Nat.add_0_r (n mod p)).
  now apply iter_mod.
Qed.

Lemma iter_mod_S (p : nat) (s0 : St) :
  (0 < p)%nat -> iter p m s0 = Some s0 ->
  forall n, iter (S n) m s0 = iter (S (n mod p)) m s0.
Proof.
  intros Hp Hper n.
  rewrite <- (Nat.add_1_r n), <- (Nat.add_1_r (n mod p)).
  now apply iter_mod.
Qed.
End Iter_mod.

Section Phase_cycle.
Variable f : nat -> option Z.
Hypothesis f_mod : forall n, f n = f (n mod 524)%nat.
Hypothesis f_mod_S : forall n, f (S n) = f (S (n mod 524)%nat).
Hypothesis f_table : forall r, (r <= 524)%nat -> f r = nth_error frame_phases r.

Lemma f_steps : forallb (step_b f) (seq 0 524) = true.
Proof.
  rewrite (forallb_ext_in _ (step_b (nth_error frame_phases))).
  - vm_compute. reflexivity.
  - intros r Hr. apply in_seq in Hr. unfold step_b.
    now rewrite !f_table by lia.
Qed.

Lemma f_entries :
  forallb (fun r => forallb (fun P => Bool.eqb (enters_b f P r) (r =? entry_offset P)%nat)
                      [0; 1; 2; 3])
          (seq 0 524) = true.
Proof.
  rewrite (forallb_ext_in _
    (fun r => forallb (fun P => Bool.eqb (enters_b (nth_error frame_phases) P r)
                                  (r =? entry_offset P)%nat) [0; 1; 2; 3])).
  - vm_compute. reflexivity.
  - intros r Hr. apply in_seq in Hr. unfold enters_b.
    now rewrite !f_table by lia.
Qed.

Lemma enters_iff_b (P : Z) (n : nat) : enters f P n <-> enters_b f P n = true.
Proof.
  unfold enters, enters_b. split.
  - intros (p & -> & Hne & ->). rewrite Z.eqb_refl, andb_true_r.
    apply negb_true_iff, Z.eqb_neq, Hne.
  - destruct (f n) as [p|]; [|discriminate].
    destruct (f (S n)) as [q|]; [|discriminate].
    intros H. apply andb_true_iff in H as [H1 H2].
    apply negb_true_iff, Z.eqb_neq in H1. apply Z.eqb_eq in H2. subst q.
    exists p. auto.
Qed.

Lemma enters_b_mod (P : Z) (n : nat) : enters_b f P n = enters_b f P (n mod 524)%nat.
Proof. unfold enters_b. now rewrite f_mod, f_mod_S. Qed.

Lemma enters_b_table (P : Z) (r : nat) :
  0 <= P <= 3 -> (r < 524)%nat -> enters_b f P r = (r =? entry_offset P)%nat.
Proof.
  intros HP Hr. pose proof f_entries as H. rewrite forallb_forall in H.
  specialize (H r ltac:(apply in_seq; lia)). rewrite forallb_forall in H.
  apply eqb_prop, H.
  assert (P = 0 \/ P = 1 \/ P = 2 \/ P = 3) as [->|[->|[->| ->]]] by lia; simpl; auto.
Qed.

Lemma enters_at_offset (P : Z) (n : nat) :
  0 <= P <= 3 -> (enters f P n <-> (n mod 524)%nat = entry_offset P).
Proof.
  intros HP. rewrite enters_iff_b, enters_b_mod, enters_b_table.
  - apply Nat.eqb_eq.
  - exact HP.
  - apply Nat.mod_upper_bound. lia.
Qed.

Lemma phase_cycle_of_table : phase_cycle f.
Proof.
  split; [|split].
  - apply (periodic_table 524 _ (step_b f)); [lia | | | exact f_steps].
    + intros n. rewrite (f_mod n), (f_mod_S n). auto.
    + intros r. unfold step_b.
      destruct (f r) as [p|]; [|discriminate].
      destruct (f (S r)) as [q|]; [|discriminate].
      intros H. apply andb_true_iff in H as [H1 H2].
      apply andb_true_iff in H1 as [H0 H1].
      apply Z.leb_le in H0, H1.
      exists p, q. repeat split; try reflexivity; try assumption.
      apply orb_true_iff in H2 as [H2|H2]; apply Z.eqb_eq in H2; auto.
  - intros n P HP. now apply enters_at_offset.
  - intros i j Hij Hi Hj Hbetween.
    rewrite enters_at_offset in Hi, Hj by lia.
    assert (~ (i + 524 < j)%nat) as Hle.
    { intros Hlt. apply (Hbetween (i + 524)%nat); [lia|].
      apply enters_at_offset; [lia|].
      rewrite <- Hi. replace (i + 524)%nat with (i + 1 * 524)%nat by lia.
      apply Nat.Div0.mod_add. }
    change (entry_offset 0) with 10%nat in Hi, Hj.
    pose proof (Nat.div_mod_eq i 524). pose proof (Nat.div_mod_eq j 524). lia.
Qed.
End Phase_cycle.

Lemma V11_trajectory :
  option_map (map V1_1.phase) (trajectory 524 V1_1.incrementLineNumber V1_1.initial)
  = Some frame_phases /\
  iter 524 V1_1.incrementLineNumber V1_1.initial = Some V1_1.initial.
Proof. split; vm_compute; reflexivity. Qed.

Lemma V10_trajectory :
  option_map (map V1_0.phase) (trajectory 524 V1_0.incrementLineNumber V1_0.initial)
  = Some frame_phases /\
  iter 524 V1_0.incrementLineNumber V1_0.initial = Some V1_0.initial.
Proof. split; vm_compute; reflexivity. Qed.

Lemma V11_phase_table (r : nat) :
  (r <= 524)%nat -> V1_1_props.phase_after r = nth_error frame_phases r.
Proof.
  intros Hr. destruct V11_trajectory as [H _].
  destruct (trajectory 524 V1_1.incrementLineNumber V1_1.initial) as [l|] eqn:T;
    [|discriminate].
  injection H as <-.
  unfold V1_1_props.phase_after, V1_1.advance.
  rewrite (trajectory_nth _ _ _ _ T r Hr). symmetry. apply nth_error_map.
Qed.

Lemma V10_phase_table (r : nat) :
  (r <= 524)%nat -> V1_0_props.phase_after r = nth_error frame_phases r.
Proof.
  intros Hr. destruct V10_trajectory as [H _].
  destruct (trajectory 524 V1_0.incrementLineNumber V1_0.initial) as [l|] eqn:T;
    [|discriminate].
  injection H as <-.
  unfold V1_0_props.phase_after, V1_0.advance.
  rewrite (trajectory_nth _ _ _ _ T r Hr). symmetry. apply nth_error_map.
Qed.

(** C1.  From the state [setup] leaves, for any number of calls of
    [incrementLineNumber], in both sketches: each call returns and either
    keeps the phase or moves it to the next one of the cycle SYNCH_PULSE,
    BACK_PORCH, ACTIVE_VIDEO, FRONT_PORCH, SYNCH_PULSE, ..., never
    further; the four phases are entered at calls 11, 13, 44 and 524 of
    every frame of 524 calls, in that order; and between two consecutive
    entries into SYNCH_PULSE there are exactly 2 + 31 + 480 + 11 = 524
    calls. *)
Theorem phase_cycle_524 :
  phase_cycle V1_1_props.phase_after /\ phase_cycle V1_0_props.phase_after.
Proof.
  split; apply phase_cycle_of_table.
  - intros n. unfold V1_1_props.phase_after, V1_1.advance. f_equal.
    apply iter_mod_0; [apply Nat.lt_0_succ | apply V11_trajectory].
  - intros n. unfold V1_1_props.phase_after, V1_1.advance. f_equal.
    apply iter_mod_S; [apply Nat.lt_0_succ | apply V11_trajectory].
  - exact V11_phase_table.
  - intros n. unfold V1_0_props.phase_after, V1_0.advance. f_equal.
    apply iter_mod_0; [apply Nat.lt_0_succ | apply V10_trajectory].
  - intros n. unfold V1_0_props.phase_after, V1_0.advance. f_equal.
    apply iter_mod_S; [apply Nat.lt_0_succ | apply V10_trajectory].
  - exact V10_phase_table.
Qed.

(** C9.  Every read of [nb_line_modes] is inside the four-element table.
    In [vgarduino.ino] the table is read at FRONT_PORCH by [setup] and at
    the masked phase by [incrementLineNumber], an index in 0..3 whatever
    the state, so the call returns on every state.  In the v1.0 sketch
    the table is read with the current phase, which is in 0..3 in every
    state reached from [setup], so the call returns on all of them.  In
    both, the phase is in 0..3 after any number of interrupts or calls. *)
Theorem table_reads_in_bounds :
  (exec V1_1.setup V1_1.reset = Some V1_1.initial /\
   (forall s, exists i n s',
       i = Z.land (to_byte (V1_1.phase s + 1)) 3 /\ 0 <= i <= 3 /\
       array_get V1_1.nb_line_modes i = Some n /\
       exec V1_1.incrementLineNumber s = Some s') /\
   (forall n, exists s, V1_1.after n = Some s /\ 0 <= V1_1.phase s <= 3) /\
   (forall n, exists s, V1_1.advance n = Some s /\ 0 <= V1_1.phase s <= 3))
  /\
  (exec V1_0.setup V1_0.reset = Some V1_0.initial /\
   (forall n, exists s c s',
       V1_0.after n = Some s /\ 0 <= V1_0.phase s <= 3 /\
       array_get V1_0.nb_line_modes (V1_0.phase s) = Some c /\
       exec V1_0.incrementLineNumber s = Some s') /\
   (forall n, exists s c s',
       V1_0.advance n = Some s /\ 0 <= V1_0.phase s <= 3 /\
       array_get V1_0.nb_line_modes (V1_0.phase s) = Some c /\
       exec V1_0.incrementLineNumber s = Some s')).
Proof.
  split; (split; [reflexivity|]).
  - split; [|split].
    + intros s. destruct (V11_incr_spec s) as (n & Hn & E).
      eexists _, n, _. split; [reflexivity|]. split; [apply land3_range|].
      split; [exact Hn|]. unfold exec. rewrite E. reflexivity.
    + intros n. destruct (V11_after_InvI n) as (s & E & HI & _).
      exists s. split; [exact E | now apply V11_Inv_phase].
    + intros n.
      destruct (iter_invariant V1_1.incrementLineNumber V1_1_props.Inv V11_incr_Inv
                  n V1_1.initial V11_Inv_initial) as (s & E & HI).
      exists s. split; [exact E | now apply V11_Inv_phase].
  - split.
    + intros n. destruct (V10_after_InvI n) as (s & E & HI & _).
      destruct (V10_incr_Inv s HI) as (s' & E' & _).
      pose proof (V10_Inv_phase s HI) as Hp. destruct HI as (c & Hc & _).
      exists s, c, s'. auto.
    + intros n.
      destruct (iter_invariant V1_0.incrementLineNumber V1_0_props.Inv V10_incr_Inv
                  n V1_0.initial V10_Inv_initial) as (s & E & HI).
      destruct (V10_incr_Inv s HI) as (s' & E' & _).
      pose proof (V10_Inv_phase s HI) as Hp. destruct HI as (c & Hc & _).
      exists s, c, s'. auto.
Qed.

(** C6.  In [vgarduino.ino], from a state at the top of a phase [P] with
    the full allotment [c = nb_line_modes[P]] loaded, exactly [c] calls of
    [incrementLineNumber] lead to the successor of [P] in the cycle with
    that phase's allotment loaded (2, 31, 480 and 11 lines for
    SYNCH_PULSE, BACK_PORCH, ACTIVE_VIDEO and FRONT_PORCH); after any
    smaller number [n] of calls the phase is still [P], with [c - n] lines
    left. *)
Theorem line_count_exhaustion (P c c' : Z) (s : V1_1.state) :
  array_get V1_1.nb_line_modes P = Some c ->
  array_get V1_1.nb_line_modes (cyc_next P) = Some c' ->
  V1_1.phase s = P -> V1_1.lines_left s = c ->
  iter (Z.to_nat c) V1_1.incrementLineNumber s
  = Some (V1_1.mkState (cyc_next P) c' (V1_1.PORTD s) (V1_1.PORTB s)) /\
  forall n, (n < Z.to_nat c)%nat ->
    iter n V1_1.incrementLineNumber s
    = Some (V1_1.mkState P (c - Z.of_nat n) (V1_1.PORTD s) (V1_1.PORTB s)).
Proof.
  intros Hc Hc' HP Hl.
  assert (V1_1_props.Inv s) as HI by (exists c; rewrite HP, Hl; split; [exact Hc|];
    pose proof (V11_table_pos _ _ Hc); lia).
  pose proof (V11_Inv_bound s HI) as Hb. pose proof (V11_Inv_phase s HI) as Hp.
  assert (forall n, (n < Z.to_nat c)%nat ->
    iter n V1_1.incrementLineNumber s
    = Some (V1_1.mkState P (c - Z.of_nat n) (V1_1.PORTD s) (V1_1.PORTB s))) as Hinner.
  { intros n Hn. rewrite V11_countdown by lia. now rewrite HP, Hl. }
  split; [|exact Hinner].
  replace (Z.to_nat c) with (S (Z.to_nat (c - 1))) by lia.
  rewrite iter_S_r, Hinner by lia.
  destruct (V11_incr_last (V1_1.mkState P (c - Z.of_nat (Z.to_nat (c - 1)))
                             (V1_1.PORTD s) (V1_1.PORTB s))) as (n & Hn & ->);
    simpl; [lia | lia |].
  simpl in Hn. congruence.
Qed.

(** C6 at the active-video phase: 480 calls lead to the front porch with
    its 11 lines loaded. *)
Lemma line_count_exhaustion_witness :
  iter (Z.to_nat 480) V1_1.incrementLineNumber (V1_1.mkState 2 480 0 3)
  = Some (V1_1.mkState (cyc_next 2) 11 0 3) /\
  forall n, (n < Z.to_nat 480)%nat ->
    iter n V1_1.incrementLineNumber (V1_1.mkState 2 480 0 3)
    = Some (V1_1.mkState 2 (480 - Z.of_nat n) 0 3).
Proof.
  apply (line_count_exhaustion 2 480 11 (V1_1.mkState 2 480 0 3));
    reflexivity.
Defined.

(** C8.  The 524 line interrupts that follow [setup] (phase FRONT_PORCH,
    11 lines left) in [vgarduino.ino] are handled in the phases
    FRONT_PORCH 11 times, SYNCH_PULSE 2 times, BACK_PORCH 31 times and
    ACTIVE_VIDEO 480 times, in that order; exactly 480 of them, the
    active-video ones, store the eight colour bands to the RGB port; and
    the state is then the initial one again. *)
Theorem frame_of_524_lines :
  exec V1_1.setup V1_1.reset = Some V1_1.initial /\
  V1_1.phase V1_1.initial = V1_1.FRONT_PORCH /\
  V1_1.lines_left V1_1.initial = 11 /\
  V1_1.lines 524 V1_1.initial = Some V1_1_props.frame /\
  length V1_1_props.frame = 524%nat /\
  map fst V1_1_props.frame
  = repeat V1_1.FRONT_PORCH 11 ++ repeat V1_1.SYNCH_PULSE 2
    ++ repeat V1_1.BACK_PORCH 31 ++ repeat V1_1.ACTIVE_VIDEO 480 /\
  length (filter (fun e => V1_1_props.emits_bands (snd e)) V1_1_props.frame) = 480%nat /\
  forallb (fun e => Bool.eqb (V1_1_props.emits_bands (snd e)) (fst e =? V1_1.ACTIVE_VIDEO))
          V1_1_props.frame = true /\
  V1_1.after 524 = Some V1_1.initial.
Proof.
  repeat split; vm_compute; reflexivity.
Qed.

(** ** Properties of the interrupt handlers *)

Section Active_line.
(** The handler run of an active-video line, in each sketch. *)
Lemma V11_isr_active (s : V1_1.state) :
  V1_1.phase s = V1_1.ACTIVE_VIDEO ->
  exists s', V1_1.TIMER1_CAPT_vect s = Some (tt, s', V1_1_props.active_line) /\
             V1_1.PORTD s' = 0.
Proof.
  intros Hp. destruct (V11_isr_ports s) as (s' & E & Hpd & _).
  unfold V1_1_props.line_actions in E, Hpd. rewrite Hp in E, Hpd.
  exists s'. split; [exact E | exact Hpd].
Qed.

Lemma V10_isr_active (s : V1_0.state) :
  V1_0.phase s = V1_0.ACTIVE_VIDEO ->
  exists s', V1_0.TIMER1_CAPT_vect s = Some (tt, s', V1_0_props.active_line) /\
             V1_0.PORTD s' = V1_0_props.rgb_rest.
Proof.
  intros Hp.
  destruct (V10_isr_ports s) as (s' & E & Hpd & _); [rewrite Hp; cbv; intuition congruence|].
  unfold V1_0_props.line_actions in E, Hpd. rewrite Hp in E, Hpd.
  exists s'. split; [exact E | exact Hpd].
Qed.
End Active_line.

(** C2, as the claim states it, fails on line 45 of the first frame of
    the v1.0 sketch (its first active-video line): the bytes the nine
    calls of [waitTimer1] receive are 91, 141, 192, 243, 38, 88, 139, 190,
    241, which is not an increasing sequence; and the targets the source
    writes are not those of eight bands of width [406 / 8] with the
    remainder in the last one. *)
Lemma wait_bytes_not_increasing :
  exists s tr,
    V1_0.after 44 = Some s /\ V1_0.phase s = V1_0.ACTIVE_VIDEO /\
    trace V1_0.TIMER1_CAPT_vect s = Some tr /\
    wait_args tr = [91; 141; 192; 243; 38; 88; 139; 190; 241] /\
    ~ strictly_increasing (wait_args tr) /\
    V1_0.band_targets <> equal_width_ticks 91 V1_0.V_ACTIVE_VIDEO_TICKS.
Proof.
  eexists _, _. split; [vm_compute; reflexivity|].
  split; [reflexivity|]. split; [vm_compute; reflexivity|].
  split; [reflexivity|]. split.
  - simpl. intros (_ & _ & _ & H & _). revert H. apply Z.lt_asymm. reflexivity.
  - vm_compute. discriminate.
Qed.

(** C2, amended.  On every active-video line of the v1.0 sketch the
    handler calls [waitTimer1] nine times, and the values of the argument
    expressions of these calls, as the trace of the handler records them,
    are [91 + (406 * k) / 8] for k = 0..8 in this order, that is 91, 141,
    192, 243, 294, 344, 395, 446, 497, a strictly increasing sequence of
    [int] values, each of which is converted to the [byte] parameter; each
    of the first eight calls is followed by the store of one band, in the
    order red, green, blue, cyan, yellow, magenta, black, white, and the
    ninth by the last store.  The bands these targets delimit are 50 or
    51 ticks wide. *)
Theorem band_targets_increasing (s : V1_0.state) :
  V1_0.phase s = V1_0.ACTIVE_VIDEO ->
  exists tr,
    trace V1_0.TIMER1_CAPT_vect s = Some tr /\
    tr = V1_0_props.placed V1_0.band_targets (V1_0_props.bands ++ [V1_0_props.rgb_rest]) /\
    wait_exprs tr
    = map (boundary_tick (V1_0.V_SYNCH_PULSE_TICKS + V1_0.V_BACK_PORCH_TICKS)
                         V1_0.V_ACTIVE_VIDEO_TICKS)
          [0; 1; 2; 3; 4; 5; 6; 7; 8] /\
    wait_exprs tr = [91; 141; 192; 243; 294; 344; 395; 446; 497] /\
    strictly_increasing (wait_exprs tr) /\
    widths (wait_exprs tr) = [50; 51; 51; 51; 50; 51; 51; 51] /\
    wait_args tr = map to_byte (wait_exprs tr) /\
    rgb_writes tr = V1_0_props.bands ++ [V1_0_props.rgb_rest] /\
    V1_0_props.bands
    = [ V1_0.RED; V1_0.GREEN; V1_0.BLUE; V1_0.CYAN;
        V1_0.YELLOW; V1_0.MAGENTA; V1_0.BLACK; V1_0.WHITE ] /\
    wait_exprs tr = V1_0.band_targets.
Proof.
  intros Hp. destruct (V10_isr_active s Hp) as (s' & E & _).
  exists V1_0_props.active_line. unfold trace. rewrite E.
  repeat split; reflexivity.
Qed.

(** C2, amended, on the first active-video line of the first frame. *)
Lemma band_targets_increasing_witness :
  exists tr,
    trace V1_0.TIMER1_CAPT_vect (V1_0.mkState 2 0 0 3) = Some tr /\
    tr = V1_0_props.placed V1_0.band_targets (V1_0_props.bands ++ [V1_0_props.rgb_rest]) /\
    wait_exprs tr
    = map (boundary_tick (V1_0.V_SYNCH_PULSE_TICKS + V1_0.V_BACK_PORCH_TICKS)
                         V1_0.V_ACTIVE_VIDEO_TICKS)
          [0; 1; 2; 3; 4; 5; 6; 7; 8] /\
    wait_exprs tr = [91; 141; 192; 243; 294; 344; 395; 446; 497] /\
    strictly_increasing (wait_exprs tr) /\
    widths (wait_exprs tr) = [50; 51; 51; 51; 50; 51; 51; 51] /\
    wait_args tr = map to_byte (wait_exprs tr) /\
    rgb_writes tr = V1_0_props.bands ++ [V1_0_props.rgb_rest] /\
    V1_0_props.bands
    = [ V1_0.RED; V1_0.GREEN; V1_0.BLUE; V1_0.CYAN;
        V1_0.YELLOW; V1_0.MAGENTA; V1_0.BLACK; V1_0.WHITE ] /\
    wait_exprs tr = V1_0.band_targets.
Proof.
  apply (band_targets_increasing (V1_0.mkState 2 0 0 3)). reflexivity.
Defined.

(** C4, as the claim states it, fails on line 45 of the first frame of
    [vgarduino.ino] (its first active-video line): one store only comes
    after a wait, that of red after the wait for tick 91; the seven other
    bands come after [delayMicroseconds(3)], so the stores are not placed
    by waits on the ticks [91 + k * 406 / 8]. *)
Lemma bands_not_placed_by_waits :
  exists s tr,
    V1_1.after 44 = Some s /\ V1_1.phase s = V1_1.ACTIVE_VIDEO /\
    trace V1_1.TIMER1_CAPT_vect s = Some tr /\
    wait_args tr = [91] /\
    waited_stores tr = [(91, V1_1.RED_MASK)] /\
    nth_error tr 2 = Some (EvDelay 3) /\
    nth_error tr 3 = Some (EvPORTD V1_1.GREEN_MASK) /\
    map fst (firstn 8 (waited_stores tr))
    <> map (boundary_tick (V1_1.H_SYNCH_PULSE_TICKS + V1_1.H_BACK_PORCH_TICKS)
                          V1_1.H_ACTIVE_VIDEO_TICKS)
           [0; 1; 2; 3; 4; 5; 6; 7].
Proof.
  eexists _, _. split; [vm_compute; reflexivity|].
  split; [reflexivity|]. split; [vm_compute; reflexivity|].
  repeat split; try reflexivity.
  vm_compute. discriminate.
Qed.

(** C4, amended.  On every active-video line, in both sketches, the
    handler stores nine values to the RGB port: the eight bands red,
    green, blue, cyan, yellow, magenta, black, white in this order, which
    are eight different values among which each of the eight colours is,
    then a value whose three colour bits are off (0 in [vgarduino.ino],
    3 in the v1.0 sketch), which is what the port is left with.  The
    first band is stored right after the wait for tick [61 + 30].  In
    [vgarduino.ino] no other store follows a wait: the bands are
    separated by [delayMicroseconds(3)].  In the v1.0 sketch each store
    follows a call of [waitTimer1], the one of band [k] on the target
    expression [91 + (406 * k) / 8] converted to [byte]. *)
Theorem eight_bands_then_blank (s1 : V1_1.state) (s0 : V1_0.state) :
  V1_1.phase s1 = V1_1.ACTIVE_VIDEO ->
  V1_0.phase s0 = V1_0.ACTIVE_VIDEO ->
  (exists tr s',
      V1_1.TIMER1_CAPT_vect s1 = Some (tt, s', tr) /\
      tr = V1_1_props.active_line /\
      rgb_writes tr = V1_1_props.bands ++ [0] /\
      V1_1_props.bands
      = [ V1_1.RED_MASK; V1_1.GREEN_MASK; V1_1.BLUE_MASK; V1_1.CYAN_MASK;
          V1_1.YELLOW_MASK; V1_1.MAGENTA_MASK; V1_1.BLACK_MASK; V1_1.WHITE_MASK ] /\
      NoDup V1_1_props.bands /\
      incl [0; 32; 64; 96; 128; 160; 192; 224] V1_1_props.bands /\
      waited_stores tr
      = [ (V1_1.H_SYNCH_PULSE_TICKS + V1_1.H_BACK_PORCH_TICKS, V1_1.RED_MASK) ] /\
      filter (fun e => match e with EvDelay _ => true | _ => false end) tr
      = repeat (EvDelay 3) 8 /\
      V1_1.PORTD s' = 0 /\ blank (V1_1.PORTD s'))
  /\
  (exists tr s',
      V1_0.TIMER1_CAPT_vect s0 = Some (tt, s', tr) /\
      tr = V1_0_props.active_line /\
      rgb_writes tr = V1_0_props.bands ++ [V1_0_props.rgb_rest] /\
      V1_0_props.bands
      = [ V1_0.RED; V1_0.GREEN; V1_0.BLUE; V1_0.CYAN;
          V1_0.YELLOW; V1_0.MAGENTA; V1_0.BLACK; V1_0.WHITE ] /\
      NoDup V1_0_props.bands /\
      incl [0; 32; 64; 96; 128; 160; 192; 224] V1_0_props.bands /\
      waited_stores tr
      = combine (map to_byte V1_0.band_targets) (V1_0_props.bands ++ [V1_0_props.rgb_rest]) /\
      firstn 8 V1_0.band_targets
      = map (boundary_tick (V1_0.V_SYNCH_PULSE_TICKS + V1_0.V_BACK_PORCH_TICKS)
                           V1_0.V_ACTIVE_VIDEO_TICKS)
            [0; 1; 2; 3; 4; 5; 6; 7] /\
      V1_0.PORTD s' = 3 /\ blank (V1_0.PORTD s')).
Proof.
  intros H1 H0.
  assert (forall l, incl [0; 32; 64; 96; 128; 160; 192; 224] l <->
                    forallb (fun v => existsb (Z.eqb v) l) [0; 32; 64; 96; 128; 160; 192; 224]
                    = true) as Hincl.
  { intros l. rewrite forallb_forall. unfold incl.
    split; intros H v Hv; specialize (H v Hv).
    - apply existsb_exists. exists v. split; [exact H | apply Z.eqb_refl].
    - apply existsb_exists in H as (w & Hw & E). apply Z.eqb_eq in E. now subst. }
  assert (NoDup [128; 64; 32; 96; 192; 160; 0; 224]) as Hnodup.
  { repeat (constructor; [simpl; intuition discriminate|]). constructor. }
  split.
  - destruct (V11_isr_active s1 H1) as (s' & E & Hpd).
    exists V1_1_props.active_line, s'. rewrite Hpd.
    repeat split; try reflexivity; try exact E.
    + exact Hnodup.
    + apply Hincl. vm_compute. reflexivity.
  - destruct (V10_isr_active s0 H0) as (s' & E & Hpd).
    exists V1_0_props.active_line, s'. rewrite Hpd.
    repeat split; try reflexivity; try exact E.
    + exact Hnodup.
    + apply Hincl. vm_compute. reflexivity.
Qed.

(** C4, amended, on the first active-video line of the first frame of
    each sketch. *)
Lemma eight_bands_then_blank_witness :
  (exists tr s',
      V1_1.TIMER1_CAPT_vect (V1_1.mkState 2 480 0 3) = Some (tt, s', tr) /\
      rgb_writes tr = V1_1_props.bands ++ [0]) /\
  (exists tr s',
      V1_0.TIMER1_CAPT_vect (V1_0.mkState 2 0 0 3) = Some (tt, s', tr) /\
      rgb_writes tr = V1_0_props.bands ++ [V1_0_props.rgb_rest]).
Proof.
  destruct (eight_bands_then_blank (V1_1.mkState 2 480 0 3) (V1_0.mkState 2 0 0 3)
              eq_refl eq_refl)
    as [(tr1 & s1' & E1 & _ & R1 & _) (tr0 & s0' & E0 & _ & R0 & _)].
  split; [exists tr1, s1' | exists tr0, s0']; split; assumption.
Defined.

(** ** The polling wait of the v1.0 sketch *)

Section Poll_wait.
Import V1_0 V1_0_props.

(** A reading at or above the target ends the wait at once. *)
Lemma wait_returns_at_once (tick r : Z) (rest : list Z) :
  tick <= r -> waitTimer1_loop tick (r :: rest) = Some (1%nat, rest).
Proof.
  intros H. simpl. destruct (Z.ltb_spec r tick); [lia | reflexivity].
Qed.

(** The wait ends on the first reading at or above the target: it makes
    at least one read, the last reading it made is at or above the
    target and those before are below. *)
Lemma wait_exit_reading (tick : Z) (readings : list Z) :
  forall n rest,
    waitTimer1_loop tick readings = Some (n, rest) ->
    exists r, nth_error readings (n - 1) = Some r /\ tick <= r /\
              (0 < n)%nat /\ rest = skipn n readings /\
              forall i q, (i < n - 1)%nat -> nth_error readings i = Some q -> q < tick.
Proof.
  induction readings as [|r0 l IH]; intros n rest H; simpl in H; [discriminate|].
  destruct (Z.ltb_spec r0 tick) as [Hlt|Hge].
  - destruct (waitTimer1_loop tick l) as [[n' l']|] eqn:E; [|discriminate].
    injection H as <- <-.
    destruct (IH n' l' eq_refl) as (r & Hr & Hle & Hn & Hrest & Hbelow).
    exists r. replace (S n' - 1)%nat with (S (n' - 1)) by lia.
    repeat split; auto; try lia.
    intros i q Hi Hq. destruct i as [|i]; simpl in Hq.
    + now injection Hq as <-.
    + apply (Hbelow i q); [lia | exact Hq].
  - injection H as <- <-. exists r0. repeat split; auto; try lia.
Qed.

(** The wait ends when a reading at or above the target comes. *)
Lemma wait_terminates (tick : Z) (readings : list Z) :
  (exists r, In r readings /\ tick <= r) ->
  exists n rest, waitTimer1_loop tick readings = Some (n, rest).
Proof.
  induction readings as [|r0 l IH]; intros (r & Hin & Hr); [contradiction|].
  simpl. destruct (Z.ltb_spec r0 tick) as [Hlt|Hge]; [|eauto].
  destruct Hin as [->|Hin]; [lia|].
  destruct IH as (n & rest & ->); eauto.
Qed.
End Poll_wait.

(** C10, as the claim states it, fails at the band target 344 (k = 5):
    the byte compared is 88, which is not smaller than 38, the byte
    compared for the preceding target 294. *)
Lemma effective_target_not_below_preceding :
  nth 5 V1_0.band_targets 0 = 344 /\
  V1_0_props.effective 5 = 88 /\ V1_0_props.effective 4 = 38 /\
  ~ (forall k, (4 <= k <= 8)%nat -> V1_0_props.effective k < V1_0_props.effective (k - 1)).
Proof.
  repeat split. intros H. specialize (H 5%nat ltac:(lia)). revert H.
  apply Z.lt_asymm. reflexivity.
Qed.

(** C10, amended.  [waitTimer1] of the v1.0 sketch takes its target as a
    [byte]: the bytes the nine calls of an active-video line receive are
    the targets modulo 256.  The targets of the calls k = 4..8 (294, 344,
    395, 446, 497) exceed 255 and are compared as [t - 256] (38, 88, 139,
    190, 241), each smaller than 243, the byte compared by the call k = 3
    (and for k = 4 smaller than that of the preceding call).  The call
    k = 3 returns on a reading at or above 243, and on any reading at or
    above 243 each of the calls k = 4..8 finds [TCNT1L < tick] false on
    entry and returns after this single read. *)
Theorem wrapped_targets_return_at_once :
  (forall s, V1_0.phase s = V1_0.ACTIVE_VIDEO ->
     exists tr, trace V1_0.TIMER1_CAPT_vect s = Some tr /\
                wait_args tr = map V1_0_props.effective (seq 0 9)) /\
  map V1_0_props.effective (seq 0 9) = map to_byte V1_0.band_targets /\
  skipn 4 V1_0.band_targets = [294; 344; 395; 446; 497] /\
  V1_0_props.effective 3 = 243 /\
  (forall k, (4 <= k <= 8)%nat ->
     255 < nth k V1_0.band_targets 0 /\
     V1_0_props.effective k = nth k V1_0.band_targets 0 - 256 /\
     V1_0_props.effective k < V1_0_props.effective 3) /\
  V1_0_props.effective 4 < V1_0_props.effective (4 - 1) /\
  (forall readings n rest,
     V1_0.waitTimer1_loop (V1_0_props.effective 3) readings = Some (n, rest) ->
     exists r, nth_error readings (n - 1) = Some r /\ V1_0_props.effective 3 <= r) /\
  (forall k r rest, (4 <= k <= 8)%nat -> V1_0_props.effective 3 <= r ->
     V1_0.waitTimer1_loop (V1_0_props.effective k) (r :: rest) = Some (1%nat, rest)).
Proof.
  assert (forall k, (4 <= k <= 8)%nat ->
            255 < nth k V1_0.band_targets 0 /\
            V1_0_props.effective k = nth k V1_0.band_targets 0 - 256 /\
            V1_0_props.effective k < V1_0_props.effective 3) as Hk.
  { intros k Hk.
    assert (k = 4 \/ k = 5 \/ k = 6 \/ k = 7 \/ k = 8)%nat as [->|[->|[->|[->| ->]]]] by lia;
      repeat split. }
  repeat split; try reflexivity.
  - intros s Hp. destruct (V10_isr_active s Hp) as (s' & E & _).
    exists V1_0_props.active_line. unfold trace. rewrite E. split; reflexivity.
  - apply Hk; assumption.
  - apply Hk; assumption.
  - apply Hk; assumption.
  - intros readings n rest H.
    destruct (wait_exit_reading _ _ _ _ H) as (r & Hr & Hle & _). eauto.
  - intros k r rest Hk' Hr. apply wait_returns_at_once.
    destruct (Hk k Hk') as (_ & _ & Hlt). lia.
Qed.

(** ** The cycles of the inline assembly of [waitTimer1] *)

Section AVR_cycles.
Import AVR AVR_props.

Lemma run_S (prog : list instr) (c : cpu) (i : instr) (f : nat) :
  nth_error prog (pc c) = Some i -> run (S f) prog c = run f prog (step i c).
Proof. intros H. simpl. now rewrite H. Qed.

Lemma step_retarget (lo : nat) (i : instr) (t r : Z) (c : cpu) :
  tick_only lo i = true ->
  step i (retarget t r c) = retarget t r (step i c).
Proof.
  destruct i as [d s|d K|d K|k|k|k|]; try destruct d; simpl; try discriminate;
    intros _; try reflexivity.
  - destruct (flag_C c); reflexivity.
  - destruct (flag_Z c); reflexivity.
Qed.

Lemma step_pc (lo : nat) (i : instr) (c : cpu) :
  tick_only lo i = true -> (lo <= S (pc c))%nat -> (lo <= pc (step i c))%nat.
Proof.
  destruct i as [d s|d K|d K|k|k|k|]; try destruct d; simpl; try discriminate;
    intros H Hpc; try exact Hpc; apply Nat.leb_le in H.
  - exact H.
  - destruct (flag_C c); simpl; assumption.
  - destruct (flag_Z c); simpl; assumption.
Qed.

(** From instruction 2 on, the block works on [%[tick]] alone and never
    goes back to the first two instructions. *)
Lemma asm_tick_only (k : nat) (i : instr) :
  (2 <= k)%nat -> nth_error waitTimer1_asm k = Some i -> tick_only 2 i = true.
Proof.
  intros Hk H. destruct k as [|[|k]]; [lia | lia |].
  do 13 (destruct k as [|k]; [injection H as <-; reflexivity|]).
  destruct k; discriminate.
Qed.

Lemma run_retarget (t r : Z) (f : nat) :
  forall c, (2 <= pc c)%nat ->
  run f waitTimer1_asm (retarget t r c)
  = option_map (retarget t r) (run f waitTimer1_asm c).
Proof.
  induction f as [|f IH]; intros c Hpc.
  - simpl. destruct (nth_error waitTimer1_asm (pc c)); reflexivity.
  - destruct (nth_error waitTimer1_asm (pc c)) as [i|] eqn:E.
    + pose proof (asm_tick_only _ _ Hpc E) as Hi.
      rewrite (run_S _ (retarget t r c) i) by exact E.
      rewrite (run_S _ c i) by exact E.
      rewrite (step_retarget 2) by exact Hi.
      apply IH. apply (step_pc 2); [exact Hi | lia].
    + simpl. change (pc (retarget t r c)) with (pc c). now rewrite E.
Qed.

(** The cycles of the loop and of the padding paths, for each byte. *)
Lemma loop_table :
  forallb (fun n =>
             match run 252 waitTimer1_asm (at_loop (Z.of_nat n)) with
             | Some c => cycles c =? cost (Z.of_nat n)
             | None => false
             end)
          (seq 0 256) = true.
Proof. vm_compute. reflexivity. Qed.

Lemma loop_cycles (d : Z) :
  0 <= d < 256 ->
  exists c, run 252 waitTimer1_asm (at_loop d) = Some c /\ cycles c = cost d.
Proof.
  intros Hd. pose proof loop_table as H. rewrite forallb_forall in H.
  specialize (H (Z.to_nat d) ltac:(apply in_seq; lia)).
  rewrite Z2Nat.id in H by lia.
  destruct (run 252 waitTimer1_asm (at_loop d)) as [c|]; [|discriminate].
  exists c. split; [reflexivity | now apply Z.eqb_eq].
Qed.

Lemma remaining_range (r13 tcnt1l tick : Z) : 0 <= remaining r13 tcnt1l tick < 256.
Proof. unfold remaining, to_byte. apply Z.mod_pos_bound. lia. Qed.

(** The block always reaches its end, after [cost] cycles of the count
    its second instruction leaves. *)
Lemma waitTimer1_cycles_exact (r13 tcnt1l tick : Z) :
  waitTimer1_cycles r13 tcnt1l tick = Some (cost (remaining r13 tcnt1l tick)).
Proof.
  unfold waitTimer1_cycles, waitTimer1, fuel, entry.
  change 256%nat with (S (S (S (S 252)))).
  rewrite (run_S _ _ (SUB Rtick Rtmp)) by reflexivity.
  unfold step at 1, goto, sub_flags, wr, rd;
    cbn [r_tick r_tmp r_13 flag_C flag_Z pc cycles].
  rewrite (run_S _ _ (SUB Rtick R13)) by reflexivity.
  unfold step at 1, goto, sub_flags, wr, rd;
    cbn [r_tick r_tmp r_13 flag_C flag_Z pc cycles].
  rewrite (run_S _ _ (RJMP 4)) by reflexivity.
  unfold step at 1, goto, sub_flags, wr, rd;
    cbn [r_tick r_tmp r_13 flag_C flag_Z pc cycles].
  rewrite (run_S _ _ (CPI Rtick 4)) by reflexivity.
  unfold step at 1, goto, sub_flags, wr, rd;
    cbn [r_tick r_tmp r_13 flag_C flag_Z pc cycles].
  fold (delta tcnt1l tick). fold (remaining r13 tcnt1l tick).
  change (0 + 1 + 1 + 2 + 1) with 5.
  change (mkCpu (remaining r13 tcnt1l tick) tcnt1l r13
                (remaining r13 tcnt1l tick <? 4)
                (to_byte (remaining r13 tcnt1l tick - 4) =? 0) 5 5)
    with (retarget tcnt1l r13 (at_loop (remaining r13 tcnt1l tick))).
  rewrite run_retarget by (simpl; lia).
  destruct (loop_cycles _ (remaining_range r13 tcnt1l tick)) as (c & -> & Hc).
  simpl. now rewrite Hc.
Qed.
End AVR_cycles.

(** C3.  The differences [waitTimer1] of [vgarduino.ino] computes are
    never negative and, when the target is not behind the counter (and,
    r13 holding 13, at least 13 ticks ahead of it), they are the exact
    differences.  But the cycles the block spends are not an affine
    function of the difference: with [d] the count left after the second
    subtraction they are [d + 12] when [d] is not a multiple of 4 and
    [d + 9] when it is, because [breq 3f] skips the three [nop] that the
    cycle counts written beside the instructions send that path through.
    For the target 91 the handler passes and r13 holding 13: entered with
    [TCNT1L] = 29, 28 or 27 the block ends at tick 90, entered with
    [TCNT1L] = 30 or 26 it ends at tick 87. *)
Theorem waitTimer1_cost_not_affine :
  (forall tcnt1l tick,
      0 <= AVR.delta tcnt1l tick /\
      (0 <= tcnt1l <= tick -> tick < 256 -> AVR.delta tcnt1l tick = tick - tcnt1l)) /\
  (forall r13 tcnt1l tick, 0 <= AVR.remaining r13 tcnt1l tick) /\
  (forall tcnt1l tick,
      0 <= tcnt1l -> tcnt1l + 13 <= tick -> tick < 256 ->
      AVR.remaining 13 tcnt1l tick = tick - tcnt1l - 13) /\
  (forall r13 tcnt1l tick,
      AVR.waitTimer1_cycles r13 tcnt1l tick
      = Some (AVR_props.cost (AVR.remaining r13 tcnt1l tick))) /\
  map (fun t => AVR.waitTimer1_cycles 13 t 91) [30; 29; 28; 27; 26]
  = [Some 57; Some 61; Some 62; Some 63; Some 61] /\
  map (fun t => option_map (Z.add t) (AVR.waitTimer1_cycles 13 t 91)) [30; 29; 28; 27; 26]
  = [Some 87; Some 90; Some 90; Some 90; Some 87] /\
  ~ (exists a b, forall tcnt1l tick,
        0 <= tcnt1l -> tcnt1l + 13 <= tick -> tick < 256 ->
        AVR.waitTimer1_cycles 13 tcnt1l tick = Some (a * (tick - tcnt1l) + b)).
Proof.
  assert (forall tcnt1l tick, 0 <= tcnt1l <= tick -> tick < 256 ->
            AVR.delta tcnt1l tick = tick - tcnt1l) as Hdelta.
  { intros tcnt1l tick H1 H2. unfold AVR.delta. apply to_byte_small. lia. }
  split; [|split; [|split; [|split; [|split; [|split]]]]].
  - intros tcnt1l tick. split; [|apply Hdelta].
    unfold AVR.delta, to_byte. apply Z.mod_pos_bound. lia.
  - intros r13 tcnt1l tick. apply remaining_range.
  - intros tcnt1l tick H0 H1 H2. unfold AVR.remaining.
    rewrite Hdelta by lia. apply to_byte_small. lia.
  - exact waitTimer1_cycles_exact.
  - vm_compute. reflexivity.
  - vm_compute. reflexivity.
  - intros (a & b & H).
    pose proof (H 30 91 ltac:(lia) ltac:(lia) ltac:(lia)) as H30.
    pose proof (H 29 91 ltac:(lia) ltac:(lia) ltac:(lia)) as H29.
    pose proof (H 28 91 ltac:(lia) ltac:(lia) ltac:(lia)) as H28.
    rewrite waitTimer1_cycles_exact in H30, H29, H28.
    change (AVR_props.cost (AVR.remaining 13 30 91)) with 57 in H30.
    change (AVR_props.cost (AVR.remaining 13 29 91)) with 61 in H29.
    change (AVR_props.cost (AVR.remaining 13 28 91)) with 62 in H28.
    injection H30 as H30. injection H29 as H29. injection H28 as H28. lia.
Qed.

(** ** More on the inline assembly of [waitTimer1] *)

Section AVR_exit.
Import AVR AVR_props.

(** After its first four instructions the block is in the loop with the
    count [remaining] in [%[tick]]. *)
Lemma waitTimer1_at_loop (r13 tcnt1l tick : Z) :
  waitTimer1 r13 tcnt1l tick
  = option_map (retarget tcnt1l r13)
               (run 252 waitTimer1_asm (at_loop (remaining r13 tcnt1l tick))).
Proof.
  unfold waitTimer1, fuel, entry.
  change 256%nat with (S (S (S (S 252)))).
  rewrite (run_S _ _ (SUB Rtick Rtmp)) by reflexivity.
  unfold step at 1, goto, sub_flags, wr, rd;
    cbn [r_tick r_tmp r_13 flag_C flag_Z pc cycles].
  rewrite (run_S _ _ (SUB Rtick R13)) by reflexivity.
  unfold step at 1, goto, sub_flags, wr, rd;
    cbn [r_tick r_tmp r_13 flag_C flag_Z pc cycles].
  rewrite (run_S _ _ (RJMP 4)) by reflexivity.
  unfold step at 1, goto, sub_flags, wr, rd;
    cbn [r_tick r_tmp r_13 flag_C flag_Z pc cycles].
  rewrite (run_S _ _ (CPI Rtick 4)) by reflexivity.
  unfold step at 1, goto, sub_flags, wr, rd;
    cbn [r_tick r_tmp r_13 flag_C flag_Z pc cycles].
  fold (delta tcnt1l tick). fold (remaining r13 tcnt1l tick).
  change (0 + 1 + 1 + 2 + 1) with 5.
  change (mkCpu (remaining r13 tcnt1l tick) tcnt1l r13
                (remaining r13 tcnt1l tick <? 4)
                (to_byte (remaining r13 tcnt1l tick - 4) =? 0) 5 5)
    with (retarget tcnt1l r13 (at_loop (remaining r13 tcnt1l tick))).
  apply run_retarget. simpl. lia.
Qed.

(** Where the loop and the padding paths end, for each byte: at the end
    of the block, with the count modulo 4 in [%[tick]]. *)
Lemma loop_exit_table :
  forallb (fun n =>
             match run 252 waitTimer1_asm (at_loop (Z.of_nat n)) with
             | Some c => (cycles c =? cost (Z.of_nat n))
                         && (r_tick c =? Z.of_nat n mod 4)
                         && (pc c =? 15)%nat
             | None => false
             end)
          (seq 0 256) = true.
Proof. vm_compute. reflexivity. Qed.

Lemma waitTimer1_exit (r13 tcnt1l tick : Z) :
  exists c,
    waitTimer1 r13 tcnt1l tick = Some c /\
    cycles c = cost (remaining r13 tcnt1l tick) /\
    r_tick c = remaining r13 tcnt1l tick mod 4 /\
    r_tmp c = tcnt1l /\ r_13 c = r13 /\ pc c = 15%nat.
Proof.
  rewrite waitTimer1_at_loop.
  pose proof (remaining_range r13 tcnt1l tick) as Hd.
  pose proof loop_exit_table as H. rewrite forallb_forall in H.
  specialize (H (Z.to_nat (remaining r13 tcnt1l tick)) ltac:(apply in_seq; lia)).
  rewrite Z2Nat.id in H by lia.
  destruct (run 252 waitTimer1_asm (at_loop (remaining r13 tcnt1l tick))) as [c|];
    [|discriminate].
  apply andb_true_iff in H as [H Hpc]. apply andb_true_iff in H as [Hc Ht].
  apply Z.eqb_eq in Hc, Ht. apply Nat.eqb_eq in Hpc.
  exists (retarget tcnt1l r13 c). simpl. repeat split; assumption.
Qed.

Lemma cost_bounds (d : Z) : 0 <= d < 256 -> 9 <= cost d <= 267.
Proof. intros H. unfold cost. destruct (d mod 4 =? 0); lia. Qed.
End AVR_exit.

(** ** The synch edge and the waits that place it *)



(** ** Exit tick, bounds and registers of the block *)

(** X1.  [waitTimer1] of [vgarduino.ino], r13 holding 13, entered at
    least 13 ticks before the target: counted from the read of [TCNT1L],
    the block ends one tick before the target, except when the distance
    to the target less 13 is a multiple of 4, where it ends four ticks
    before it.  The end of the wait thus moves by three ticks at most
    with the tick of entry. *)
Theorem waitTimer1_exit_tick (tcnt1l tick : Z) :
  0 <= tcnt1l -> tcnt1l + 13 <= tick -> tick < 256 ->
  exists n,
    AVR.waitTimer1_cycles 13 tcnt1l tick = Some n /\
    tcnt1l + n = (if (tick - tcnt1l - 13) mod 4 =? 0 then tick - 4 else tick - 1).
Proof.
  intros H0 H1 H2. rewrite waitTimer1_cycles_exact. eexists. split; [reflexivity|].
  assert (AVR.remaining 13 tcnt1l tick = tick - tcnt1l - 13) as ->.
  { unfold AVR.remaining, AVR.delta. rewrite (to_byte_small (tick - tcnt1l)) by lia.
    apply to_byte_small. lia. }
  unfold AVR_props.cost. destruct ((tick - tcnt1l - 13) mod 4 =? 0); lia.
Qed.

(** X1 for the target 91 of the handler, entered at tick 29. *)
Lemma waitTimer1_exit_tick_witness :
  exists n, AVR.waitTimer1_cycles 13 29 91 = Some n /\ 29 + n = 90.
Proof.
  apply (waitTimer1_exit_tick 29 91); lia.
Defined.

(** X2.  Whatever the target, the reading of [TCNT1L] and the content of
    r13, the block of [waitTimer1] reaches its end after at least 9 and at
    most 267 cycles, less than the 507 ticks of a line. *)
Theorem waitTimer1_bounded :
  forall r13 tcnt1l tick,
  exists n,
    AVR.waitTimer1_cycles r13 tcnt1l tick = Some n /\
    9 <= n <= 267 /\ n < V1_1.H_FULL_LINE_NB_TICKS.
Proof.
  intros r13 tcnt1l tick. rewrite waitTimer1_cycles_exact. eexists. split; [reflexivity|].
  pose proof (cost_bounds _ (remaining_range r13 tcnt1l tick)) as H.
  split; [exact H|]. change V1_1.H_FULL_LINE_NB_TICKS with 507. lia.
Qed.

(** X3.  [waitTimer1] entered late, r13 holding 13: when the counter is
    less than 13 ticks before the target, the second subtraction wraps
    around and the block, far from returning at once, spends between 252
    and 267 cycles, ending more than 238 ticks after the target. *)
Theorem waitTimer1_late_entry (tcnt1l tick : Z) :
  0 <= tcnt1l <= tick -> tick < tcnt1l + 13 -> tick < 256 ->
  exists n,
    AVR.waitTimer1_cycles 13 tcnt1l tick = Some n /\
    AVR.remaining 13 tcnt1l tick = 243 + (tick - tcnt1l) /\
    252 <= n <= 267 /\ tick + 238 < tcnt1l + n.
Proof.
  intros H0 H1 H2. rewrite waitTimer1_cycles_exact. eexists. split; [reflexivity|].
  assert (AVR.remaining 13 tcnt1l tick = 243 + (tick - tcnt1l)) as ->.
  { unfold AVR.remaining, AVR.delta. rewrite (to_byte_small (tick - tcnt1l)) by lia.
    unfold to_byte.
    replace (tick - tcnt1l - 13) with (243 + (tick - tcnt1l) + (-1) * 256) by lia.
    rewrite Z.mod_add by lia. apply Z.mod_small. lia. }
  split; [reflexivity|].
  unfold AVR_props.cost. destruct ((243 + (tick - tcnt1l)) mod 4 =? 0); lia.
Qed.

(** X3 for the target 91 of the handler, entered at tick 80. *)
Lemma waitTimer1_late_entry_witness :
  exists n,
    AVR.waitTimer1_cycles 13 80 91 = Some n /\
    AVR.remaining 13 80 91 = 243 + (91 - 80) /\
    252 <= n <= 267 /\ 91 + 238 < 80 + n.
Proof.
  apply (waitTimer1_late_entry 80 91); lia.
Defined.

(** X4.  The block of [waitTimer1] always leaves by its end (label 3),
    with [%[tmp]] and r13 as they were and [%[tick]], which the [asm]
    statement declares as an input only, overwritten with a value below
    4: the count left by the second subtraction modulo 4. *)
Theorem waitTimer1_registers :
  forall r13 tcnt1l tick,
  exists c,
    AVR.waitTimer1 r13 tcnt1l tick = Some c /\
    AVR.pc c = length AVR.waitTimer1_asm /\
    AVR.r_tmp c = tcnt1l /\ AVR.r_13 c = r13 /\
    AVR.r_tick c = AVR.remaining r13 tcnt1l tick mod 4 /\
    0 <= AVR.r_tick c < 4.
Proof.
  intros r13 tcnt1l tick.
  destruct (waitTimer1_exit r13 tcnt1l tick) as (c & E & _ & Ht & Htmp & H13 & Hpc).
  exists c. repeat split; try assumption; rewrite Ht;
    apply Z.mod_pos_bound; lia.
Qed.

(** ** More on the polling wait of the v1.0 sketch *)

(** X5.  The loop of [waitTimer1] of the v1.0 sketch ends on the first
    reading of [TCNT1L] that is not below the target, having read exactly
    the readings up to and including that one; it is still spinning after
    the last reading if and only if all of them are below the target. *)
Theorem poll_wait_first_reading :
  (forall tick readings,
      V1_0.waitTimer1_loop tick readings = None <->
      forall r, In r readings -> r < tick) /\
  (forall tick readings n rest,
      V1_0.waitTimer1_loop tick readings = Some (n, rest) <->
      exists before r,
        readings = before ++ r :: rest /\ n = S (length before) /\
        tick <= r /\ forall q, In q before -> q < tick).
Proof.
  split.
  - intros tick readings. induction readings as [|r0 l IH]; simpl.
    + split; [intros _ r [] | reflexivity].
    + destruct (Z.ltb_spec r0 tick) as [Hlt|Hge].
      * destruct (V1_0.waitTimer1_loop tick l) as [[n l']|].
        -- split; [discriminate|]. intros H.
           assert (Some (n, l') = None) as E by (apply IH; intros r Hr; apply H; now right).
           discriminate E.
        -- split; [|reflexivity]. intros _ r [<-|Hr]; [exact Hlt|].
           now apply (proj1 IH).
      * split; [discriminate|]. intros H. specialize (H r0 (or_introl eq_refl)). lia.
  - intros tick readings. induction readings as [|r0 l IH]; intros n rest; simpl.
    + split; [discriminate|]. intros (before & r & E & _). now destruct before.
    + destruct (Z.ltb_spec r0 tick) as [Hlt|Hge].
      * destruct (V1_0.waitTimer1_loop tick l) as [[n' l']|] eqn:El.
        -- split.
           ++ intros H. injection H as <- <-.
              destruct (proj1 (IH n' l') eq_refl) as (before & r & E & Hn & Hr & Hb).
              exists (r0 :: before), r. subst l n'.
              split; [reflexivity|]. split; [reflexivity|]. split; [exact Hr|].
              intros q [<-|Hq]; auto.
           ++ intros (before & r & E & Hn & Hr & Hb).
              destruct before as [|b before]; simpl in E; injection E as -> ->; [lia|].
              assert (Some (n', l') = Some (length before + 1, rest)%nat) as E'.
              { apply IH. exists before, r. repeat split; auto; [lia|].
                intros q Hq. apply Hb. now right. }
              injection E' as -> ->. subst n. simpl. do 2 f_equal. lia.
        -- split; [discriminate|].
           intros (before & r & E & Hn & Hr & Hb).
           destruct before as [|b before]; simpl in E; injection E as -> ->; [lia|].
           assert (None = Some (length before + 1, rest)%nat) as E'.
           { apply IH. exists before, r. repeat split; auto; [lia|].
             intros q Hq. apply Hb. now right. }
           discriminate E'.
      * split.
        -- intros H. injection H as <- <-. exists [], r0. repeat split; auto.
           intros q [].
        -- intros (before & r & E & Hn & Hr & Hb).
           destruct before as [|b before]; simpl in E; injection E as -> ->.
           ++ now subst n.
           ++ specialize (Hb b (or_introl eq_refl)). lia.
Qed.

(** X6.  On the same readings, a wait of the v1.0 sketch for an earlier
    target ends no later than a wait for a later one: it ends whenever
    the other does, after no more reads. *)
Theorem poll_wait_monotone (tick1 tick2 : Z) (readings : list Z) (n2 : nat) (rest2 : list Z) :
  tick1 <= tick2 ->
  V1_0.waitTimer1_loop tick2 readings = Some (n2, rest2) ->
  exists n1 rest1,
    V1_0.waitTimer1_loop tick1 readings = Some (n1, rest1) /\ (n1 <= n2)%nat.
Proof.
  intros Hle. revert n2 rest2.
  induction readings as [|r0 l IH]; intros n2 rest2 H; simpl in *; [discriminate|].
  destruct (Z.ltb_spec r0 tick1) as [H1|H1].
  - destruct (Z.ltb_spec r0 tick2) as [H2|H2]; [|lia].
    destruct (V1_0.waitTimer1_loop tick2 l) as [[n' l']|]; [|discriminate].
    injection H as <- <-.
    destruct (IH n' l' eq_refl) as (n1 & rest1 & -> & Hn).
    exists (S n1), rest1. split; [reflexivity | lia].
  - exists 1%nat, l. split; [reflexivity|].
    destruct (r0 <? tick2); [|injection H as <- _; lia].
    destruct (V1_0.waitTimer1_loop tick2 l) as [[n' l']|]; [|discriminate].
    injection H as <- _. lia.
Qed.

(** X6 for the targets 294 and 243 of an active-video line: the first is
    received as 38, and on the readings 100, 250 its wait ends at the
    first read while the wait for 243 takes both. *)
Lemma poll_wait_monotone_witness :
  exists n1 rest1,
    V1_0.waitTimer1_loop (to_byte 294) [100; 250] = Some (n1, rest1) /\ (n1 <= 2)%nat.
Proof.
  apply (poll_wait_monotone (to_byte 294) 243 [100; 250] 2 []);
    [vm_compute; discriminate | reflexivity].
Defined.

(** ** More on the phase state machines *)

Section V1_0_count.
Import V1_0 V1_0_props.

(** [n] calls inside a phase count [n] lines up. *)
Lemma V10_countup (n : nat) :
  forall s c,
    array_get nb_line_modes (phase s) = Some c ->
    0 <= line_number s -> line_number s + Z.of_nat n < c ->
    iter n incrementLineNumber s
    = Some (mkState (phase s) (line_number s + Z.of_nat n) (PORTD s) (PORTB s)).
Proof.
  induction n as [|n IH]; intros s c Hc H0 Hn.
  - simpl. rewrite Z.add_0_r. now destruct s.
  - rewrite iter_S_r, (IH s c) by (auto; lia).
    rewrite (V10_incr_inner _ c) by (simpl; auto; lia).
    simpl. do 2 f_equal. lia.
Qed.

Lemma V10_phase_in_table (s : state) :
  0 <= phase s <= 3 <-> exists c, array_get nb_line_modes (phase s) = Some c.
Proof.
  split; [apply V10_table_total|]. intros (c & Hc). eapply array_get_4_inv, Hc.
Qed.
End V1_0_count.

(** X7.  In the v1.0 sketch, from the top of a phase [P] (line index 0),
    exactly [c = nb_line_modes[P]] calls of [incrementLineNumber] lead to
    the top of the successor of [P] in the cycle; after any smaller
    number [n] of calls the phase is still [P] and the line index is
    [n]. *)
Theorem line_index_exhaustion (P c : Z) (s : V1_0.state) :
  array_get V1_0.nb_line_modes P = Some c ->
  V1_0.phase s = P -> V1_0.line_number s = 0 ->
  iter (Z.to_nat c) V1_0.incrementLineNumber s
  = Some (V1_0.mkState (cyc_next P) 0 (V1_0.PORTD s) (V1_0.PORTB s)) /\
  forall n, (n < Z.to_nat c)%nat ->
    iter n V1_0.incrementLineNumber s
    = Some (V1_0.mkState P (Z.of_nat n) (V1_0.PORTD s) (V1_0.PORTB s)).
Proof.
  intros Hc HP Hl. pose proof (V10_table_bound _ _ Hc) as Hb.
  assert (forall n, (n < Z.to_nat c)%nat ->
    iter n V1_0.incrementLineNumber s
    = Some (V1_0.mkState P (Z.of_nat n) (V1_0.PORTD s) (V1_0.PORTB s))) as Hinner.
  { intros n Hn. rewrite (V10_countup n s c) by (rewrite ?HP, ?Hl; auto; lia).
    now rewrite HP, Hl. }
  split; [|exact Hinner].
  replace (Z.to_nat c) with (S (Z.to_nat (c - 1))) by lia.
  rewrite iter_S_r, Hinner by lia.
  rewrite (V10_incr_last _ c) by (simpl; auto; lia). reflexivity.
Qed.

(** X7 at the front porch the sketch starts in: 11 calls lead to the top
    of the synch pulse. *)
Lemma line_index_exhaustion_witness :
  iter (Z.to_nat 11) V1_0.incrementLineNumber V1_0.initial
  = Some (V1_0.mkState (cyc_next 3) 0 0 3) /\
  forall n, (n < Z.to_nat 11)%nat ->
    iter n V1_0.incrementLineNumber V1_0.initial
    = Some (V1_0.mkState 3 (Z.of_nat n) 0 3).
Proof.
  apply (line_index_exhaustion 3 11 V1_0.initial); reflexivity.
Defined.

Section Lockstep.
Import Both.

Lemma lockstep_initial : lockstep V1_1.initial V1_0.initial.
Proof.
  split; [reflexivity|]. exists 11. repeat split; try reflexivity; cbv; congruence.
Qed.

Lemma lockstep_step (s1 : V1_1.state) (s0 : V1_0.state) :
  lockstep s1 s0 ->
  exists s1' s0',
    exec V1_1.incrementLineNumber s1 = Some s1' /\
    exec V1_0.incrementLineNumber s0 = Some s0' /\
    lockstep s1' s0' /\
    V1_1.PORTD s1' = V1_1.PORTD s1 /\ V1_1.PORTB s1' = V1_1.PORTB s1 /\
    V1_0.PORTD s0' = V1_0.PORTD s0 /\ V1_0.PORTB s0' = V1_0.PORTB s0.
Proof.
  intros (Hph & c & Hc1 & Hc0 & Hl & Hsum).
  pose proof (array_get_4_inv _ _ _ _ _ _ Hc1) as Hp.
  pose proof (V10_table_bound _ _ Hc0) as Hb.
  destruct (Z.eq_dec (V1_1.lines_left s1) 1) as [E|NE].
  - destruct (V11_incr_last s1 E Hp) as (n & Hn & ->).
    rewrite (V10_incr_last s0 c Hc0) by lia.
    eexists _, _. split; [reflexivity|]. split; [reflexivity|].
    split; [|simpl; auto]. split; [simpl; now rewrite Hph|].
    exists n. simpl. pose proof (V11_table_pos _ _ Hn).
    split; [exact Hn|]. split; [rewrite <- Hph; exact Hn|]. lia.
  - rewrite V11_incr_inner by lia.
    rewrite (V10_incr_inner s0 c Hc0) by lia.
    eexists _, _. split; [reflexivity|]. split; [reflexivity|].
    split; [|simpl; auto]. split; [exact Hph|].
    exists c. simpl. repeat split; auto; lia.
Qed.
End Lockstep.

(** X8.  The two sketches count the frame in lockstep.  Whenever they
    are in the same phase and the lines [vgarduino.ino] has left plus the
    lines the v1.0 sketch has counted make the allotment of that phase,
    one call of [incrementLineNumber] in each keeps it so; this holds of
    the states the two [setup] leave, hence after any number of calls:
    same phase, and [lines_left + line_number = nb_line_modes[phase]]. *)
Theorem counters_in_lockstep :
  Both.lockstep V1_1.initial V1_0.initial /\
  (forall s1 s0, Both.lockstep s1 s0 ->
     exists s1' s0',
       exec V1_1.incrementLineNumber s1 = Some s1' /\
       exec V1_0.incrementLineNumber s0 = Some s0' /\
       Both.lockstep s1' s0') /\
  (forall n, exists s1 s0,
     V1_1.advance n = Some s1 /\ V1_0.advance n = Some s0 /\ Both.lockstep s1 s0).
Proof.
  split; [exact lockstep_initial|]. split.
  - intros s1 s0 H. destruct (lockstep_step s1 s0 H) as (s1' & s0' & E1 & E0 & L & _).
    eauto.
  - intros n. unfold V1_1.advance, V1_0.advance. induction n as [|n IH].
    + exists V1_1.initial, V1_0.initial.
      split; [reflexivity|]. split; [reflexivity | exact lockstep_initial].
    + destruct IH as (s1 & s0 & E1 & E0 & L).
      destruct (lockstep_step s1 s0 L) as (s1' & s0' & F1 & F0 & L' & _).
      exists s1', s0'. rewrite !iter_S_r, E1, E0. auto.
Qed.

(** X9.  [incrementLineNumber] of [vgarduino.ino] recovers from a phase
    byte outside the four phases: from any state with a positive counter,
    whatever its phase, the calls that exhaust the counter lead to a
    phase in 0..3, the masked successor of the one it had, with that
    phase's allotment loaded. *)
Theorem V11_recovers_from_any_phase (s : V1_1.state) :
  0 < V1_1.lines_left s <= 32767 ->
  exists s',
    iter (Z.to_nat (V1_1.lines_left s)) V1_1.incrementLineNumber s = Some s' /\
    V1_1.phase s' = Z.land (to_byte (V1_1.phase s + 1)) 3 /\
    0 <= V1_1.phase s' <= 3 /\
    array_get V1_1.nb_line_modes (V1_1.phase s') = Some (V1_1.lines_left s') /\
    V1_1_props.Inv s'.
Proof.
  intros Hl.
  replace (Z.to_nat (V1_1.lines_left s)) with (S (Z.to_nat (V1_1.lines_left s - 1))) by lia.
  rewrite iter_S_r, V11_countdown by lia.
  destruct (V11_incr_spec
              (V1_1.mkState (V1_1.phase s)
                 (V1_1.lines_left s - Z.of_nat (Z.to_nat (V1_1.lines_left s - 1)))
                 (V1_1.PORTD s) (V1_1.PORTB s))) as (n & Hn & E).
  unfold exec. rewrite E. simpl.
  replace (V1_1.lines_left s - Z.of_nat (Z.to_nat (V1_1.lines_left s - 1)) - 1)
    with 0 by lia.
  simpl. eexists. split; [reflexivity|]. simpl.
  split; [reflexivity|]. split; [apply land3_range|]. split; [exact Hn|].
  exists n. simpl. split; [exact Hn|]. pose proof (V11_table_pos _ _ Hn). lia.
Qed.

(** X9 from the phase byte 200 with five lines left: five calls lead to
    phase 1 (201 masked), BACK_PORCH, with its 31 lines. *)
Lemma V11_recovers_from_any_phase_witness :
  exists s',
    iter 5 V1_1.incrementLineNumber (V1_1.mkState 200 5 0 3) = Some s' /\
    V1_1.phase s' = 1 /\ V1_1.lines_left s' = 31.
Proof.
  destruct (V11_recovers_from_any_phase (V1_1.mkState 200 5 0 3))
    as (s' & E & Hp & _ & Hn & _); [simpl; lia|].
  exists s'. split; [exact E|]. split; [exact Hp|].
  rewrite Hp in Hn. now injection Hn as <-.
Defined.

(** X10.  In the v1.0 sketch [incrementLineNumber] reads the table with
    the phase as it is, and the handler calls it on every line: both have
    a result exactly when the phase is in 0..3, the read being outside
    the four-element table otherwise. *)
Theorem V10_defined_iff_phase_in_table :
  forall s,
    ((exists s', exec V1_0.incrementLineNumber s = Some s') <-> 0 <= V1_0.phase s <= 3) /\
    ((exists s' tr, V1_0.TIMER1_CAPT_vect s = Some (tt, s', tr)) <-> 0 <= V1_0.phase s <= 3) /\
    (array_get V1_0.nb_line_modes (V1_0.phase s) = None <-> ~ 0 <= V1_0.phase s <= 3).
Proof.
  intros s.
  assert (~ 0 <= V1_0.phase s <= 3 -> array_get V1_0.nb_line_modes (V1_0.phase s) = None)
    as Hout.
  { intros H. destruct (array_get V1_0.nb_line_modes (V1_0.phase s)) as [c|] eqn:E;
      [|reflexivity]. exfalso. apply H. eapply array_get_4_inv, E. }
  assert (forall pd pb, ~ 0 <= V1_0.phase s <= 3 ->
            exec V1_0.incrementLineNumber
              (V1_0.mkState (V1_0.phase s) (V1_0.line_number s) pd pb) = None) as Hnone.
  { intros pd pb H. unfold exec. rewrite V10_incr_out_of_bounds; [reflexivity|].
    simpl. now apply Hout. }
  split; [|split].
  - split.
    + intros (s' & E). destruct (Z_le_dec 0 (V1_0.phase s)); [|exfalso].
      * destruct (Z_le_dec (V1_0.phase s) 3); [lia|exfalso].
        specialize (Hnone (V1_0.PORTD s) (V1_0.PORTB s) ltac:(lia)).
        destruct s; simpl in *; congruence.
      * specialize (Hnone (V1_0.PORTD s) (V1_0.PORTB s) ltac:(lia)).
        destruct s; simpl in *; congruence.
    + intros H. destruct (V10_table_total _ H) as (c & Hc).
      unfold exec. rewrite (V10_incr_spec s c Hc). eauto.
  - split.
    + intros (s' & tr & E). rewrite V10_isr_spec in E.
      destruct (V1_0_props.line_actions s) as [[tr0 pd] pb].
      destruct (Z_le_dec 0 (V1_0.phase s)); [|exfalso].
      * destruct (Z_le_dec (V1_0.phase s) 3); [lia|exfalso].
        rewrite (Hnone pd pb) in E by lia. discriminate.
      * rewrite (Hnone pd pb) in E by lia. discriminate.
    + intros H. destruct (V10_isr_ports s H) as (s' & E & _). eauto.
  - split; [|exact Hout]. intros E H.
    destruct (V10_table_total _ H) as (c & Hc). congruence.
Qed.

(** ** More on the interrupt handlers *)

Section Handler_ports.

Lemma V11_exec_isr (s s' : V1_1.state) (tr : list event) :
  V1_1.TIMER1_CAPT_vect s = Some (tt, s', tr) -> exec V1_1.TIMER1_CAPT_vect s = Some s'.
Proof. intros E. unfold exec. now rewrite E. Qed.

Lemma V10_exec_isr (s s' : V1_0.state) (tr : list event) :
  V1_0.TIMER1_CAPT_vect s = Some (tt, s', tr) -> exec V1_0.TIMER1_CAPT_vect s = Some s'.
Proof. intros E. unfold exec. now rewrite E. Qed.

(** The RGB port holds 0 between the handler runs of [vgarduino.ino]. *)
Lemma V11_after_blank (n : nat) :
  exists s, V1_1.after n = Some s /\ V1_1_props.InvI s /\ V1_1.PORTD s = 0.
Proof.
  apply (iter_invariant V1_1.TIMER1_CAPT_vect
           (fun s => V1_1_props.InvI s /\ V1_1.PORTD s = 0)).
  - intros s [HI HD]. destruct (V11_isr_InvI s HI) as (s' & E & HI').
    exists s'. split; [exact E|]. split; [exact HI'|].
    destruct (V11_isr_ports s) as (s2 & E2 & Hpd & _).
    rewrite (V11_exec_isr _ _ _ E2) in E. injection E as <-.
    rewrite Hpd. unfold V1_1_props.line_actions.
    destruct (V1_1.phase s =? V1_1.ACTIVE_VIDEO); [reflexivity|].
    destruct (V1_1_props.boundary s); exact HD.
  - split; [exact V11_InvI_initial | reflexivity].
Qed.

(** The RGB port holds 0 or 3 between the handler runs of the v1.0
    sketch. *)
Lemma V10_after_blank (n : nat) :
  exists s, V1_0.after n = Some s /\ V1_0_props.InvI s /\
            (V1_0.PORTD s = 0 \/ V1_0.PORTD s = 3).
Proof.
  apply (iter_invariant V1_0.TIMER1_CAPT_vect
           (fun s => V1_0_props.InvI s /\ (V1_0.PORTD s = 0 \/ V1_0.PORTD s = 3))).
  - intros s [HI HD]. destruct (V10_isr_InvI s HI) as (s' & E & HI').
    exists s'. split; [exact E|]. split; [exact HI'|].
    destruct (V10_isr_ports s (V10_Inv_phase s (proj1 HI))) as (s2 & E2 & Hpd & _).
    rewrite (V10_exec_isr _ _ _ E2) in E. injection E as <-.
    rewrite Hpd. unfold V1_0_props.line_actions.
    destruct (V1_0.phase s =? V1_0.FRONT_PORCH);
      [destruct (V1_0.line_number s =? _); exact HD|].
    destruct (V1_0.phase s =? V1_0.SYNCH_PULSE);
      [destruct (V1_0.line_number s =? _); exact HD|].
    destruct (V1_0.phase s =? V1_0.ACTIVE_VIDEO); [right; reflexivity | exact HD].
  - split; [exact V10_InvI_initial | left; reflexivity].
Qed.
End Handler_ports.

(** X11.  The colour output is blank between lines and outside active
    video, in both sketches: in every state reached from [setup] the
    three colour bits of the RGB port are off when the handler is entered
    and when it returns (the port holds 0 in [vgarduino.ino]), and a
    handler run in a phase other than ACTIVE_VIDEO makes no store to the
    RGB port. *)
Theorem colour_blank_between_lines :
  (forall n, exists s s' tr,
      V1_1.after n = Some s /\ V1_1.TIMER1_CAPT_vect s = Some (tt, s', tr) /\
      V1_1.PORTD s = 0 /\ V1_1.PORTD s' = 0 /\
      blank (V1_1.PORTD s) /\ blank (V1_1.PORTD s') /\
      (V1_1.phase s <> V1_1.ACTIVE_VIDEO -> rgb_writes tr = [])) /\
  (forall n, exists s s' tr,
      V1_0.after n = Some s /\ V1_0.TIMER1_CAPT_vect s = Some (tt, s', tr) /\
      blank (V1_0.PORTD s) /\ blank (V1_0.PORTD s') /\
      (V1_0.phase s <> V1_0.ACTIVE_VIDEO ->
         rgb_writes tr = [] /\ V1_0.PORTD s' = V1_0.PORTD s)).
Proof.
  split; intros n.
  - destruct (V11_after_blank n) as (s & E & HI & HD).
    destruct (V11_isr_ports s) as (s' & Es & Hpd & _).
    destruct (V11_after_blank (S n)) as (s2 & E2 & _ & HD2).
    unfold V1_1.after in E, E2. rewrite iter_S_r, E, (V11_exec_isr _ _ _ Es) in E2.
    injection E2 as <-.
    exists s, s', (fst (fst (V1_1_props.line_actions s))).
    split; [exact E|]. split; [exact Es|]. rewrite HD, HD2.
    repeat split.
    intros Hp. unfold V1_1_props.line_actions.
    destruct (Z.eqb_spec (V1_1.phase s) V1_1.ACTIVE_VIDEO); [contradiction|].
    destruct (V1_1_props.boundary s); reflexivity.
  - destruct (V10_after_blank n) as (s & E & HI & HD).
    destruct (V10_isr_ports s (V10_Inv_phase s (proj1 HI))) as (s' & Es & Hpd & _).
    destruct (V10_after_blank (S n)) as (s2 & E2 & _ & HD2).
    unfold V1_0.after in E, E2. rewrite iter_S_r, E, (V10_exec_isr _ _ _ Es) in E2.
    injection E2 as <-.
    exists s, s', (fst (fst (V1_0_props.line_actions s))).
    split; [exact E|]. split; [exact Es|].
    split; [destruct HD as [-> | ->]; repeat split|].
    split; [destruct HD2 as [-> | ->]; repeat split|].
    intros Hp. rewrite Hpd. unfold V1_0_props.line_actions.
    destruct (V1_0.phase s =? V1_0.FRONT_PORCH);
      [destruct (V1_0.line_number s =? _); split; reflexivity|].
    destruct (V1_0.phase s =? V1_0.SYNCH_PULSE);
      [destruct (V1_0.line_number s =? _); split; reflexivity|].
    destruct (Z.eqb_spec (V1_0.phase s) V1_0.ACTIVE_VIDEO); [contradiction|].
    split; reflexivity.
Qed.

(** X12.  The synch line the handler drives (bit 0 of the synch port) is
    low exactly while the phase is SYNCH_PULSE, and the handler never
    changes the other synch bit, which [setup] sets: in every state
    reached from [setup], in both sketches, bit 0 is off if and only if
    the phase is SYNCH_PULSE and bit 1 is on. *)
Theorem sync_low_during_pulse_only :
  (forall n, exists s,
      V1_1.after n = Some s /\
      (Z.testbit (V1_1.PORTB s) V1_1.VSYNCH_PIN = false <-> V1_1.phase s = V1_1.SYNCH_PULSE) /\
      Z.testbit (V1_1.PORTB s) V1_1.HSYNCH_PIN = true) /\
  (forall n, exists s,
      V1_0.after n = Some s /\
      (Z.testbit (V1_0.PORTB s) V1_0.HSYNCH_PIN = false <-> V1_0.phase s = V1_0.SYNCH_PULSE) /\
      Z.testbit (V1_0.PORTB s) V1_0.VSYNCH_PIN = true).
Proof.
  split; intros n.
  - destruct (V11_after_InvI n) as (s & E & HI & HB).
    exists s. split; [exact E|]. rewrite HB.
    destruct (Z.eqb_spec (V1_1.phase s) V1_1.SYNCH_PULSE) as [Hp|Hp];
      (split; [split; [intros H; try discriminate H; assumption
                      | intros H; try contradiction; reflexivity]
             | reflexivity]).
  - destruct (V10_after_InvI n) as (s & E & HI & HB).
    exists s. split; [exact E|]. rewrite HB.
    destruct (Z.eqb_spec (V1_0.phase s) V1_0.SYNCH_PULSE) as [Hp|Hp];
      (split; [split; [intros H; try discriminate H; assumption
                      | intros H; try contradiction; reflexivity]
             | reflexivity]).
Qed.

Section Frames.

(** [lines] lists, line after line, the phase of the state [iter] reaches
    and the actions of the handler run made there. *)
Lemma lines_nth (n : nat) :
  forall s l, V1_1.lines n s = Some l ->
  forall r d, (r < n)%nat ->
    exists sr sr',
      iter r V1_1.TIMER1_CAPT_vect s = Some sr /\
      V1_1.phase sr = fst (nth r l d) /\
      V1_1.TIMER1_CAPT_vect sr = Some (tt, sr', snd (nth r l d)).
Proof.
  induction n as [|n IH]; intros s l H r d Hr; [lia|].
  simpl in H.
  destruct (V1_1.TIMER1_CAPT_vect s) as [[[[] s'] tr]|] eqn:E; [|discriminate].
  destruct (V1_1.lines n s') as [l'|] eqn:El; [|discriminate].
  injection H as <-. destruct r as [|r].
  - exists s, s'. simpl. auto.
  - destruct (IH s' l' El r d ltac:(lia)) as (sr & sr' & Hi & Hp & Ht).
    exists sr, sr'. simpl. rewrite (V11_exec_isr _ _ _ E). auto.
Qed.

Lemma V11_first_frame :
  V1_1.lines 524 V1_1.initial = Some V1_1_props.frame /\
  iter 524 V1_1.TIMER1_CAPT_vect V1_1.initial = Some V1_1.initial.
Proof. split; vm_compute; reflexivity. Qed.
End Frames.

(** X13.  In [vgarduino.ino] every frame is like the first one: the
    state comes back every 524 line interrupts, and the interrupt number
    [n + 1] is handled in the phase, and with the actions, of line
    [n mod 524] of the first frame (lines counted from 0): nothing on a
    front-porch, synch-pulse or back-porch line but the toggle on lines
    10 and 12, the eight bands on the 480 active-video lines. *)
Theorem every_frame_alike :
  forall n,
    V1_1.after (n + 524) = V1_1.after n /\
    exists s s',
      V1_1.after n = Some s /\
      V1_1.phase s = fst (nth (n mod 524) V1_1_props.frame (0, [])) /\
      V1_1.TIMER1_CAPT_vect s
      = Some (tt, s', snd (nth (n mod 524) V1_1_props.frame (0, []))).
Proof.
  intros n. destruct V11_first_frame as [Hl Hp]. split.
  - unfold V1_1.after. replace (n + 524)%nat with (1 * 524 + n)%nat by lia.
    now apply iter_period.
  - unfold V1_1.after.
    rewrite (iter_mod_0 V1_1.TIMER1_CAPT_vect 524 V1_1.initial
               (Nat.lt_0_succ _) Hp n).
    apply (lines_nth 524 _ _ Hl). apply Nat.mod_upper_bound. discriminate.
Qed.

(** X14.  The handler drives output pins only, in [vgarduino.ino]: in
    every state reached from [setup], each value a handler run stores to
    the RGB port or to the synch port sets no bit outside those [init_io]
    configured as outputs.  In the v1.0 sketch the eight bands are within
    the output pins too, but the last store of an active-video line sets
    bits 0 and 1 of the RGB port, which [init_video] left as inputs. *)
Theorem stores_within_output_pins :
  (forall n, exists s s' tr,
      V1_1.after n = Some s /\ V1_1.TIMER1_CAPT_vect s = Some (tt, s', tr) /\
      forallb (Pins.within Pins.V1_1_DDRD) (rgb_writes tr) = true /\
      forallb (Pins.within Pins.V1_1_DDRB) (sync_writes tr) = true) /\
  (forall n, exists s s' tr,
      V1_0.after n = Some s /\ V1_0.TIMER1_CAPT_vect s = Some (tt, s', tr) /\
      forallb (Pins.within Pins.V1_0_DDRD) (firstn 8 (rgb_writes tr)) = true /\
      forallb (Pins.within Pins.V1_0_DDRB) (sync_writes tr) = true /\
      (V1_0.phase s = V1_0.ACTIVE_VIDEO ->
         nth_error (rgb_writes tr) 8 = Some 3 /\
         Z.land 3 (Z.lnot Pins.V1_0_DDRD) = 3)).
Proof.
  split; intros n.
  - destruct (V11_after_InvI n) as (s & E & HI & HB).
    destruct (V11_isr_ports s) as (s' & Es & _).
    exists s, s', (fst (fst (V1_1_props.line_actions s))).
    split; [exact E|]. split; [exact Es|].
    unfold V1_1_props.line_actions. rewrite HB.
    destruct (V1_1.phase s =? V1_1.ACTIVE_VIDEO); [split; reflexivity|].
    destruct (V1_1_props.boundary s); [|split; reflexivity].
    destruct (V1_1.phase s =? V1_1.SYNCH_PULSE); split; reflexivity.
  - destruct (V10_after_InvI n) as (s & E & HI & HB).
    destruct (V10_isr_ports s (V10_Inv_phase s HI)) as (s' & Es & _).
    exists s, s', (fst (fst (V1_0_props.line_actions s))).
    split; [exact E|]. split; [exact Es|].
    unfold V1_0_props.line_actions. rewrite HB.
    destruct (Z.eqb_spec (V1_0.phase s) V1_0.FRONT_PORCH) as [Hf|Hf].
    { rewrite Hf. simpl.
      destruct (V1_0.line_number s =? _); repeat split; try reflexivity;
        discriminate. }
    destruct (Z.eqb_spec (V1_0.phase s) V1_0.SYNCH_PULSE) as [Hs|Hs].
    { rewrite Hs.
      destruct (V1_0.line_number s =? _); repeat split; try reflexivity;
        discriminate. }
    destruct (Z.eqb_spec (V1_0.phase s) V1_0.ACTIVE_VIDEO) as [Ha|Ha];
      repeat split; try reflexivity; contradiction.
Qed.

(** X15.  [setup] does not depend on what the globals and the ports held
    before: from any state it leaves the phase at FRONT_PORCH with the
    counter at its start (11 lines left, respectively line index 0), the
    RGB port at 0 and both synch lines high, having stored 0 to the RGB
    port before raising the synch lines.  In particular [setup] called
    again after any number of line interrupts restarts the frame. *)
Theorem setup_from_any_state :
  (forall s, V1_1.setup s = Some (tt, V1_1.initial, [EvPORTD 0; EvPORTB 3])) /\
  (forall s, V1_0.setup s = Some (tt, V1_0.initial, [EvPORTD 0; EvPORTB 3])) /\
  (forall n, exists s, V1_1.after n = Some s /\ exec V1_1.setup s = Some V1_1.initial) /\
  (forall n, exists s, V1_0.after n = Some s /\ exec V1_0.setup s = Some V1_0.initial).
Proof.
  assert (forall s, V1_1.setup s = Some (tt, V1_1.initial, [EvPORTD 0; EvPORTB 3])) as H1
    by (intros [ph ll pd pb]; reflexivity).
  assert (forall s, V1_0.setup s = Some (tt, V1_0.initial, [EvPORTD 0; EvPORTB 3])) as H0
    by (intros [ph ln pd pb]; reflexivity).
  split; [exact H1|]. split; [exact H0|]. split; intros n.
  - destruct (V11_after_InvI n) as (s & E & _). exists s. split; [exact E|].
    unfold exec. now rewrite H1.
  - destruct (V10_after_InvI n) as (s & E & _). exists s. split; [exact E|].
    unfold exec. now rewrite H0.
Qed.

(** ** The two handlers side by side *)

Section Side_by_side.
Import Both.

(** Lockstep does not depend on the ports. *)
Lemma lockstep_ports (s1 : V1_1.state) (s0 : V1_0.state) (pd1 pb1 pd0 pb0 : Z) :
  lockstep s1 s0 ->
  lockstep (V1_1.mkState (V1_1.phase s1) (V1_1.lines_left s1) pd1 pb1)
           (V1_0.mkState (V1_0.phase s0) (V1_0.line_number s0) pd0 pb0).
Proof. intros H. exact H. Qed.

(** In lockstep, with the synch port as the handlers keep it, the two
    handlers make the same stores to the synch port and store the same
    eight bands. *)
Lemma line_actions_agree (s1 : V1_1.state) (s0 : V1_0.state) :
  lockstep s1 s0 -> V1_1_props.InvI s1 -> V1_0_props.InvI s0 ->
  sync_writes (fst (fst (V1_1_props.line_actions s1)))
  = sync_writes (fst (fst (V1_0_props.line_actions s0))) /\
  firstn 8 (rgb_writes (fst (fst (V1_1_props.line_actions s1))))
  = firstn 8 (rgb_writes (fst (fst (V1_0_props.line_actions s0)))) /\
  V1_1.PORTB s1 = V1_0.PORTB s0.
Proof.
  intros (Hph & c & Hc1 & Hc0 & Hl & Hsum) [_ HB1] [_ HB0].
  pose proof (array_get_4_inv _ _ _ _ _ _ Hc1) as Hp.
  destruct s1 as [ph ll pd1 pb1], s0 as [ph0 ln pd0 pb0]; simpl in *.
  subst ph0 pb1 pb0.
  unfold V1_1_props.line_actions, V1_0_props.line_actions, V1_1_props.boundary; simpl.
  assert (ph = 0 \/ ph = 1 \/ ph = 2 \/ ph = 3) as [->|[->|[->| ->]]] by lia;
    simpl in *; injection Hc1 as <-;
    unfold V1_1.V_SYNCH_PULSE_LINES, V1_1.V_FRONT_PORCH_LINES in *;
    try (repeat split; reflexivity);
    destruct (Z.eqb_spec ll 1); destruct (Z.eqb_spec ln 1);
    destruct (Z.eqb_spec ln 10); try lia; repeat split; reflexivity.
Qed.

Lemma handlers_step (s1 : V1_1.state) (s0 : V1_0.state) :
  lockstep s1 s0 -> V1_1_props.InvI s1 -> V1_0_props.InvI s0 ->
  exists s1' s0',
    V1_1.TIMER1_CAPT_vect s1 = Some (tt, s1', fst (fst (V1_1_props.line_actions s1))) /\
    V1_0.TIMER1_CAPT_vect s0 = Some (tt, s0', fst (fst (V1_0_props.line_actions s0))) /\
    lockstep s1' s0' /\ V1_1_props.InvI s1' /\ V1_0_props.InvI s0'.
Proof.
  intros L I1 I0.
  destruct (V11_isr_InvI s1 I1) as (s1' & E1 & I1').
  destruct (V10_isr_InvI s0 I0) as (s0' & E0 & I0').
  exists s1', s0'.
  pose proof (V11_isr_spec s1) as S1. pose proof (V10_isr_spec s0) as S0.
  destruct (V1_1_props.line_actions s1) as [[tr1 pd1] pb1].
  destruct (V1_0_props.line_actions s0) as [[tr0 pd0] pb0].
  destruct (lockstep_step _ _ (lockstep_ports s1 s0 pd1 pb1 pd0 pb0 L))
    as (t1 & t0 & F1 & F0 & L' & _).
  rewrite F1 in S1. rewrite F0 in S0.
  rewrite (V11_exec_isr _ _ _ S1) in E1. rewrite (V10_exec_isr _ _ _ S0) in E0.
  injection E1 as <-. injection E0 as <-. simpl. auto.
Qed.
End Side_by_side.

(** X16.  The handlers of the two sketches drive the same signal.
    After any number of line interrupts from their [setup] they are in
    the same phase at the same place of it, with the same synch port;
    their next runs make the same stores to the synch port, and store the
    same eight colours in the same order to the RGB port (the value that
    follows the bands, 0 or 3, differs). *)
Theorem handlers_drive_the_same_signal :
  forall n, exists s1 s0 s1' s0' tr1 tr0,
    V1_1.after n = Some s1 /\ V1_0.after n = Some s0 /\
    Both.lockstep s1 s0 /\ V1_1.PORTB s1 = V1_0.PORTB s0 /\
    V1_1.TIMER1_CAPT_vect s1 = Some (tt, s1', tr1) /\
    V1_0.TIMER1_CAPT_vect s0 = Some (tt, s0', tr0) /\
    sync_writes tr1 = sync_writes tr0 /\
    firstn 8 (rgb_writes tr1) = firstn 8 (rgb_writes tr0).
Proof.
  assert (forall n, exists s1 s0,
            V1_1.after n = Some s1 /\ V1_0.after n = Some s0 /\
            Both.lockstep s1 s0 /\ V1_1_props.InvI s1 /\ V1_0_props.InvI s0) as Hn.
  { unfold V1_1.after, V1_0.after. induction n as [|n IH].
    - exists V1_1.initial, V1_0.initial.
      split; [reflexivity|]. split; [reflexivity|].
      split; [exact lockstep_initial|].
      split; [exact V11_InvI_initial | exact V10_InvI_initial].
    - destruct IH as (s1 & s0 & E1 & E0 & L & I1 & I0).
      destruct (handlers_step s1 s0 L I1 I0) as (s1' & s0' & F1 & F0 & L' & I1' & I0').
      exists s1', s0'.
      rewrite !iter_S_r, E1, E0, (V11_exec_isr _ _ _ F1), (V10_exec_isr _ _ _ F0).
      auto. }
  intros n. destruct (Hn n) as (s1 & s0 & E1 & E0 & L & I1 & I0).
  destruct (handlers_step s1 s0 L I1 I0) as (s1' & s0' & F1 & F0 & _).
  destruct (line_actions_agree s1 s0 L I1 I0) as (Hs & Hr & Hb).
  exists s1, s0, s1', s0', (fst (fst (V1_1_props.line_actions s1))),
    (fst (fst (V1_0_props.line_actions s0))).
  split; [exact E1|]. split; [exact E0|]. split; [exact L|]. split; [exact Hb|].
  split; [exact F1|]. split; [exact F0|]. split; [exact Hs | exact Hr].
Qed.
